(** * The conversation-continuity workflow of the Slack / PaLM 2 chat bridge

    A shallow embedding of [src/app.py]: the message handler
    [handle_incoming_message] and the pipeline [generate_response], run
    against explicit models of the external collaborators (the Cloud Storage
    bucket, the chat model, Slack, the text model and Cloud Logging).

    Python strings are Rocq strings holding their UTF-8 bytes; Python's
    [None] is the [None] of [option string]; a [dict] with string keys is a
    [gmap string _]; [bytes] is a [list byte].  Every external call may raise:
    the pipeline lives in a state-and-exception monad over the world of the
    external services, and an exception keeps the effects already made. *)

From Stdlib Require Import Strings.String Strings.Ascii Strings.Byte.
From Stdlib Require Import Lists.List Arith.PeanoNat Bool.Bool Lia.
From stdpp Require Import base option list gmap strings.

Import ListNotations.
Local Open Scope string_scope.
Local Open Scope list_scope.

(** ** Python values and string operations *)

(** A value that is either a [str] or [None]: what [payload.get(key)] gives
    for the fields of a Slack message event. *)
Definition pyval : Type := option string.

(** [bytes] objects. *)
Definition bytes : Type := list byte.

(** The line feed, written [\n] in the source. *)
Definition LF : ascii := "010"%char.

(** The horizontal tab and the carriage return. *)
Definition TAB : ascii := "009"%char.
Definition CR : ascii := "013"%char.

(** [f"{v}"]: formatting a value inside an f-string; [None] prints as the
    four letters of its name. *)
Definition py_format (v : pyval) : string :=
  match v with
  | Some s => s
  | None => "None"
  end.

(** [c in chars], for a character and a string used as a set of characters. *)
Fixpoint char_in (c : ascii) (chars : string) : bool :=
  match chars with
  | EmptyString => false
  | String d chars' => Ascii.eqb c d || char_in c chars'
  end.

(** [s.lstrip(chars)] *)
Fixpoint py_lstrip (chars s : string) : string :=
  match s with
  | EmptyString => EmptyString
  | String c s' => if char_in c chars then py_lstrip chars s' else s
  end.

(** [s.rstrip(chars)] *)
Fixpoint py_rstrip (chars s : string) : string :=
  match s with
  | EmptyString => EmptyString
  | String c s' =>
      match py_rstrip chars s' with
      | EmptyString => if char_in c chars then EmptyString else String c EmptyString
      | r => String c r
      end
  end.

(** [s.strip(chars)]: the characters of [chars] removed from both ends. *)
Definition py_strip (chars s : string) : string :=
  py_rstrip chars (py_lstrip chars s).

(** Every character of [s] is one of [chars]. *)
Fixpoint only_chars (chars s : string) : bool :=
  match s with
  | EmptyString => true
  | String c s' => char_in c chars && only_chars chars s'
  end.

(** The argument of [strip] in the source, [" \n"]. *)
Definition STRIP_CHARS : string := String " " (String LF EmptyString).

(** The ASCII whitespace of [str.strip()] without an argument: space, tab,
    line feed, vertical tab, form feed and carriage return.  This follows
    the words of the specification ("trimmed of whitespace"), to be compared
    with [STRIP_CHARS]. *)
Definition ASCII_WHITESPACE : string :=
  String " " (String TAB (String LF (String "011" (String "012" (String CR EmptyString))))).

Definition trim_whitespace (s : string) : string := py_strip ASCII_WHITESPACE s.

(** ** Data of the program *)

(** [vertexai.language_models.InputOutputTextPair] *)
Record InputOutputTextPair : Type := {
  input_text : string;
  output_text : string
}.

(** [vertexai.language_models.ChatMessage]: one message of a history. *)
Record ChatMessage : Type := {
  content : string;
  author : string
}.

(** The response of [chat.send_message]: the two attributes the pipeline
    reads. *)
Record TextGenerationResponse : Type := {
  text : string;
  is_blocked : bool
}.

(** The pickled object: a dict with the keys [metadata] and
    [historical_chat]. *)
Record ConversationRecord : Type := {
  metadata : string;
  historical_chat : list ChatMessage
}.

(** A Slack message event: the dict [payload].  A key may be missing, or
    present with the value [None] (JSON null). *)
Abbreviation Payload := (gmap string pyval).

(** [payload.get(key)]: [None] for a missing key. *)
Definition payload_get (key : string) (payload : Payload) : pyval :=
  match payload !! key with
  | Some v => v
  | None => None
  end.

(** Exceptions.  The first four are the failures of the external services;
    [NotFound] is what [download_as_bytes] raises for a blob that does not
    exist and [UnpicklingError] what [pickle.loads] raises. *)
Inductive exn : Type :=
  | StorageUnavailable
  | CompletionServiceError
  | DeliveryError
  | AuditError
  | NotFound
  | UnpicklingError.

(** The external calls of one run of the pipeline, in program order. *)
Inductive Step : Type :=
  | AtExists      (* historical_chat_blob.exists() *)
  | AtDownload    (* historical_chat_blob.download_as_bytes() *)
  | AtChat        (* chat.send_message(prompt, **PARAMETERS) *)
  | AtPost        (* client.chat_postMessage(...) *)
  | AtSave        (* gc_utils.store_historical_chat_to_gcs(...) *)
  | AtKeyword     (* gc_utils.get_keyword(...) *)
  | AtLog.        (* gc_utils.send_log(...) *)

(** A completed external call, as the service on the other side saw it. *)
Inductive Call : Type :=
  | BlobExists (bucket name : string)
  | BlobDownload (bucket name : string)
  | ChatSend (context : string) (examples : list InputOutputTextPair)
             (message_history : list ChatMessage) (prompt : pyval)
  | PostMessage (channel thread_ts : pyval) (text : string)
  | BlobUpload (bucket name : string) (data : bytes)
  | GetKeyword (prompt : pyval)
  | SendLog (user_id prompt : pyval) (response keyword : string).

(** The world outside the process: the objects of Cloud Storage, by bucket
    and object name, and the calls that the services have completed, oldest
    first. *)
Record World : Type := {
  gcs : gmap (string * string) bytes;
  trace : list Call
}.

(** What the services answer during the handling of one event: which calls
    fail, what the chat model replies (the response and the session's
    [_message_history] after the exchange) and which keyword the text model
    gives.  The chat model samples, so each event carries its own replies. *)
Record Services : Type := {
  fault : Step -> option exn;
  send_message_reply :
    list ChatMessage -> pyval -> TextGenerationResponse * list ChatMessage;
  get_keyword_reply : pyval -> string
}.

(** What the process loads or imports at start-up and never changes:
    [pickle], [utils.remove_markdown] and the few-shot [examples] read from
    the samples file. *)
Record Runtime : Type := {
  pickle_dumps : ConversationRecord -> bytes;
  pickle_loads : bytes -> option ConversationRecord;
  remove_markdown : string -> string;
  examples : list InputOutputTextPair
}.

(** ** The monad of the pipeline: state and exceptions *)

Definition M (A : Type) : Type := World -> (exn + A) * World.

#[global] Instance M_ret : MRet M := fun A (a : A) w => (inr a, w).

#[global] Instance M_bind : MBind M := fun A B (f : A -> M B) (m : M A) w =>
  match m w with
  | (inr a, w') => f a w'
  | (inl e, w') => (inl e, w')
  end.

(** [raise e] *)
Definition raise {A : Type} (e : exn) : M A := fun w => (inl e, w).

(** The world as it is now. *)
Definition get_world : M World := fun w => (inr w, w).

(** An external call at step [s]: it raises when the service fails there,
    and otherwise the service completes it with the effect [upd]. *)
Definition external (sv : Services) (s : Step) (c : Call)
    (upd : World -> World) : M unit := fun w =>
  match fault sv s with
  | Some e => (inl e, w)
  | None => (inr tt, upd {| gcs := gcs w; trace := trace w ++ [c] |})
  end.

(** ** Constants of the module *)

Definition HISTORICAL_CHAT_BUCKET_NAME : string := "historical-chat-object".

Definition RESPONSE_STYLE : string := "".

(** The notice posted instead of a blocked or empty completion. *)
Definition POLICY_NOTICE : string :=
  "入力または出力が Google のポリシーに違反している可能性があるため、出力がブロックされています。プロンプトの言い換えや、パラメータ設定の調整を試してください。".

(** ** The collaborators in [modules.gc_utils] and the client libraries *)

(** A handle on an object of a bucket: [google.cloud.storage.Blob]. *)
Record Blob : Type := {
  blob_bucket : string;
  blob_name : string
}.

(** Modelled from the spec: [gc_utils.download_blob], the load of section
    4.1, is not in the sources.  It addresses the blob of that name in the
    bucket and hands back the handle; whether the object exists is asked of
    the handle afterwards, so a missing record is not an error. *)
Definition download_blob (bucket_name name : string) : M Blob :=
  mret {| blob_bucket := bucket_name; blob_name := name |}.

(** [blob.exists()] *)
Definition blob_exists (sv : Services) (b : Blob) : M bool :=
  external sv AtExists (BlobExists (blob_bucket b) (blob_name b)) id ;;
  w ← get_world;
  mret (bool_decide (is_Some (gcs w !! (blob_bucket b, blob_name b)))).

(** [blob.download_as_bytes()] *)
Definition download_as_bytes (sv : Services) (b : Blob) : M bytes :=
  external sv AtDownload (BlobDownload (blob_bucket b) (blob_name b)) id ;;
  w ← get_world;
  match gcs w !! (blob_bucket b, blob_name b) with
  | Some data => mret data
  | None => raise NotFound
  end.

(** [pickle.loads(data)] *)
Definition loads (rt : Runtime) (data : bytes) : M ConversationRecord :=
  match pickle_loads rt data with
  | Some r => mret r
  | None => raise UnpicklingError
  end.

(** [chat_model.start_chat(...)] followed by [chat.send_message(prompt)]:
    the request carries the context, the examples, the history the session
    was started with and the prompt; the answer is the response together
    with [chat._message_history] as the session leaves it. *)
Definition send_message (rt : Runtime) (sv : Services) (context : string)
    (message_history : list ChatMessage) (prompt : pyval)
    : M (TextGenerationResponse * list ChatMessage) :=
  external sv AtChat (ChatSend context (examples rt) message_history prompt) id ;;
  mret (send_message_reply sv message_history prompt).

(** [client.chat_postMessage(channel=..., thread_ts=..., text=...)] *)
Definition chat_postMessage (sv : Services) (channel thread_ts : pyval)
    (txt : string) : M unit :=
  external sv AtPost (PostMessage channel thread_ts txt) id.

(** Modelled from the spec: [gc_utils.store_historical_chat_to_gcs], the
    save of section 4.1, is not in the sources.  It serializes the record
    made of the metadata and the history and overwrites the blob of that
    name in the bucket with it. *)
Definition store_historical_chat_to_gcs (rt : Runtime) (sv : Services)
    (meta : string) (history : list ChatMessage)
    (bucket_name name : string) : M unit :=
  let data := pickle_dumps rt {| metadata := meta; historical_chat := history |} in
  external sv AtSave (BlobUpload bucket_name name data)
    (fun w => {| gcs := <[(bucket_name, name) := data]> (gcs w); trace := trace w |}).

(** Modelled from the spec: [gc_utils.get_keyword], the keyword derivation
    of section 4.6, is not in the sources.  It is one call of the text model
    on the prompt. *)
Definition get_keyword (sv : Services) (prompt : pyval) : M string :=
  external sv AtKeyword (GetKeyword prompt) id ;;
  mret (get_keyword_reply sv prompt).

(** Modelled from the spec: [gc_utils.send_log], the record operation of
    section 4.6, is not in the sources.  It hands one structured entry to
    the logging sink. *)
Definition send_log (sv : Services) (user_id prompt : pyval)
    (response keyword : string) : M unit :=
  external sv AtLog (SendLog user_id prompt response keyword) id.

(** ** The program *)

(** The text sent to Slack for a response: lines 130 to 138. *)
Definition payload_of (rt : Runtime) (response : TextGenerationResponse) : string :=
  let blocked := is_blocked response in
  let is_empty_response :=
    Nat.ltb (String.length (py_strip STRIP_CHARS (text response))) 1 in
  if blocked || is_empty_response
  then POLICY_NOTICE
  else remove_markdown rt (text response).

(** [generate_response], lines 81 to 153. *)
Definition generate_response (rt : Runtime) (sv : Services)
    (ts conversation_thread user_id channel_id prompt : pyval) : M unit :=
  let historical_chat_blob_name := py_format conversation_thread +:+ ".pkl" in
  historical_chat_blob ←
    download_blob HISTORICAL_CHAT_BUCKET_NAME historical_chat_blob_name;
  is_existing_thread ← blob_exists sv historical_chat_blob;
  message_history ←
    (if is_existing_thread : bool
     then
       serialized_historical_chat ← download_as_bytes sv historical_chat_blob;
       historical_chat_dict ← loads rt serialized_historical_chat;
       mret (historical_chat historical_chat_dict)
     else mret []);
  let this_prompt_context := RESPONSE_STYLE in
  '(response, chat_message_history) ←
    send_message rt sv this_prompt_context message_history prompt;
  let payload := payload_of rt response in
  chat_postMessage sv channel_id ts payload ;;
  store_historical_chat_to_gcs rt sv "dummy_metadata_chat" chat_message_history
    HISTORICAL_CHAT_BUCKET_NAME historical_chat_blob_name ;;
  if negb is_existing_thread
  then
    keyword ← get_keyword sv prompt;
    send_log sv user_id prompt payload keyword
  else mret tt.

(** [handle_incoming_message], lines 156 to 173. *)
Definition handle_incoming_message (rt : Runtime) (sv : Services)
    (payload : Payload) : M unit :=
  let channel_id := payload_get "channel" payload in
  let user_id := payload_get "user" payload in
  let prompt := payload_get "text" payload in
  let ts := payload_get "ts" payload in
  let thread_ts := payload_get "thread_ts" payload in
  let conversation_thread :=
    match thread_ts with
    | None => ts
    | Some _ => thread_ts
    end in
  generate_response rt sv ts conversation_thread user_id channel_id prompt.

(** ** The hosting layer: events handled one after the other *)

(** One inbound event, with what the services do while it is handled. *)
Definition Turn : Type := Payload * Services.

(** The endpoint hands the event to the handler; an exception of the
    handler is the hosting layer's to answer, and the next event is handled
    in the world the failed one left. *)
Definition handle_event (rt : Runtime) (t : Turn) (w : World) : World :=
  snd (handle_incoming_message rt (snd t) (fst t) w).

Definition serve (rt : Runtime) (turns : list Turn) (w : World) : World :=
  fold_left (fun w t => handle_event rt t w) turns w.

(** ** The pipeline as the state machine of the design

    [ReceivedEvent], [HistoryLoaded], [CompletionGenerated],
    [ResponseDispatched], [HistoryPersisted], [AuditLogged]: the same run
    written as a list of steps over the world the event arrives in.  The
    program above is proved equal to it below, and the properties of the
    workflow are read off this form. *)

(** The thread identifier the handler derives from an event. *)
Definition conversation_thread_of (payload : Payload) : pyval :=
  match payload_get "thread_ts" payload with
  | None => payload_get "ts" payload
  | Some v => Some v
  end.

(** The name of the blob of a thread's record, and its place in the store. *)
Definition record_name (conversation_thread : pyval) : string :=
  py_format conversation_thread +:+ ".pkl".

Definition record_key (conversation_thread : pyval) : string * string :=
  (HISTORICAL_CHAT_BUCKET_NAME, record_name conversation_thread).

(** The thread has a persisted record. *)
Definition has_record (w : World) (conversation_thread : pyval) : bool :=
  bool_decide (is_Some (gcs w !! record_key conversation_thread)).

(** The record of the thread can be read back: there is none, or the blob
    unpickles. *)
Definition loadable (rt : Runtime) (w : World) (conversation_thread : pyval) : Prop :=
  match gcs w !! record_key conversation_thread with
  | Some data => is_Some (pickle_loads rt data)
  | None => True
  end.

(** The history a run starts the chat session with. *)
Definition loaded_history (rt : Runtime) (w : World) (conversation_thread : pyval)
    : list ChatMessage :=
  match gcs w !! record_key conversation_thread with
  | Some data =>
      match pickle_loads rt data with
      | Some r => historical_chat r
      | None => []
      end
  | None => []
  end.

(** The chat model's answer in a run: the response, and the history after
    the exchange. *)
Definition response_of (rt : Runtime) (sv : Services) (w : World)
    (conversation_thread prompt : pyval) : TextGenerationResponse :=
  fst (send_message_reply sv (loaded_history rt w conversation_thread) prompt).

Definition updated_history (rt : Runtime) (sv : Services) (w : World)
    (conversation_thread prompt : pyval) : list ChatMessage :=
  snd (send_message_reply sv (loaded_history rt w conversation_thread) prompt).

(** The blob a run writes. *)
Definition saved_blob (rt : Runtime) (sv : Services) (w : World)
    (conversation_thread prompt : pyval) : bytes :=
  pickle_dumps rt {| metadata := "dummy_metadata_chat";
                     historical_chat := updated_history rt sv w conversation_thread prompt |}.

(** The steps of a run that nothing interrupts. *)
Definition pipeline_steps (w : World) (conversation_thread : pyval) : list Step :=
  if has_record w conversation_thread
  then [AtExists; AtDownload; AtChat; AtPost; AtSave]
  else [AtExists; AtChat; AtPost; AtSave; AtKeyword; AtLog].

(** The call each step makes, for an event that arrived in the world [w0]. *)
Definition step_call (rt : Runtime) (sv : Services) (w0 : World)
    (ts conversation_thread user_id channel_id prompt : pyval) (s : Step) : Call :=
  let payload := payload_of rt (response_of rt sv w0 conversation_thread prompt) in
  match s with
  | AtExists => BlobExists HISTORICAL_CHAT_BUCKET_NAME (record_name conversation_thread)
  | AtDownload => BlobDownload HISTORICAL_CHAT_BUCKET_NAME (record_name conversation_thread)
  | AtChat => ChatSend RESPONSE_STYLE (examples rt)
                (loaded_history rt w0 conversation_thread) prompt
  | AtPost => PostMessage channel_id ts payload
  | AtSave => BlobUpload HISTORICAL_CHAT_BUCKET_NAME (record_name conversation_thread)
                (saved_blob rt sv w0 conversation_thread prompt)
  | AtKeyword => GetKeyword prompt
  | AtLog => SendLog user_id prompt payload (get_keyword_reply sv prompt)
  end.

(** The effect of a completed step: the call is on the trace, and the save
    has overwritten the blob. *)
Definition step_effect (rt : Runtime) (sv : Services) (w0 : World)
    (ts conversation_thread user_id channel_id prompt : pyval)
    (s : Step) (w : World) : World :=
  {| gcs := match s with
            | AtSave => <[record_key conversation_thread :=
                            saved_blob rt sv w0 conversation_thread prompt]> (gcs w)
            | _ => gcs w
            end;
     trace := trace w ++
              [step_call rt sv w0 ts conversation_thread user_id channel_id prompt s] |}.

(** Running steps in order until one fails. *)
Fixpoint run_steps (rt : Runtime) (sv : Services) (w0 : World)
    (ts conversation_thread user_id channel_id prompt : pyval)
    (steps : list Step) (w : World) : (exn + unit) * World :=
  match steps with
  | [] => (inr tt, w)
  | s :: rest =>
      match fault sv s with
      | Some e => (inl e, w)
      | None =>
          run_steps rt sv w0 ts conversation_thread user_id channel_id prompt rest
            (step_effect rt sv w0 ts conversation_thread user_id channel_id prompt s w)
      end
  end.

(** The worlds the steps leave when none of them fails. *)
Definition after_steps (rt : Runtime) (sv : Services) (w0 : World)
    (ts conversation_thread user_id channel_id prompt : pyval)
    (steps : list Step) (w : World) : World :=
  fold_left
    (fun w s => step_effect rt sv w0 ts conversation_thread user_id channel_id prompt s w)
    steps w.

(** No call fails. *)
Definition no_fault (sv : Services) : Prop := forall s, fault sv s = None.

(** The calls of the audit branch on a trace. *)
Definition is_audit_call (c : Call) : bool :=
  match c with
  | GetKeyword _ | SendLog _ _ _ _ => true
  | _ => false
  end.

Definition audit_calls (tr : list Call) : list Call := List.filter is_audit_call tr.

(** The two kinds of audit call, counted apart. *)
Definition is_keyword_call (c : Call) : bool :=
  match c with
  | GetKeyword _ => true
  | _ => false
  end.

Definition is_log_entry (c : Call) : bool :=
  match c with
  | SendLog _ _ _ _ => true
  | _ => false
  end.

Definition keyword_count (w : World) : nat :=
  List.length (List.filter is_keyword_call (trace w)).

Definition log_count (w : World) : nat :=
  List.length (List.filter is_log_entry (trace w)).

(** Where a thread stands, audit-wise, in a world [w] reached from [w0]:
    either it still has no record and no audit call was added, or it has
    one and at most one call of each kind was added. *)
Definition audited_at_most_once (thread : pyval) (w0 w : World) : Prop :=
  (gcs w !! record_key thread = None /\
   keyword_count w = keyword_count w0 /\ log_count w = log_count w0)
  \/ (is_Some (gcs w !! record_key thread) /\
      keyword_count w <= S (keyword_count w0) /\ log_count w <= S (log_count w0)).

(** The messages posted to Slack on a trace. *)
Definition is_post (c : Call) : bool :=
  match c with
  | PostMessage _ _ _ => true
  | _ => false
  end.

Definition posts (tr : list Call) : list Call := List.filter is_post tr.

(** The requests the chat model received on a trace. *)
Definition is_chat_call (c : Call) : bool :=
  match c with
  | ChatSend _ _ _ _ => true
  | _ => false
  end.

Definition chat_calls (tr : list Call) : list Call := List.filter is_chat_call tr.

(** The calls to Cloud Storage on a trace. *)
Definition is_storage_call (c : Call) : bool :=
  match c with
  | BlobExists _ _ | BlobDownload _ _ | BlobUpload _ _ _ => true
  | _ => false
  end.

Definition storage_calls (tr : list Call) : list Call := List.filter is_storage_call tr.

(** The services let the run get as far as the chat model's answer: the
    look-up of the record, its download when there is one, and the
    completion do not fail. *)
Definition completes (sv : Services) (w : World) (conversation_thread : pyval) : Prop :=
  fault sv AtExists = None /\
  (has_record w conversation_thread = true -> fault sv AtDownload = None) /\
  fault sv AtChat = None.

(** ... as far as the dispatch to Slack. *)
Definition dispatches (sv : Services) (w : World) (conversation_thread : pyval) : Prop :=
  completes sv w conversation_thread /\ fault sv AtPost = None.

(** ... as far as the save of the record. *)
Definition persists (sv : Services) (w : World) (conversation_thread : pyval) : Prop :=
  dispatches sv w conversation_thread /\ fault sv AtSave = None.

(** ** A concrete runtime

    A small length-prefixed serialization standing for [pickle], and
    services that answer like an echo: used to run the program on concrete
    events. *)

Module Codec.

(** A length in unary: that many [x01], closed by [x00]. *)
Definition enc_nat (n : nat) : bytes := repeat x01 n ++ [x00].

Fixpoint dec_nat (bs : bytes) : option (nat * bytes) :=
  match bs with
  | x00 :: rest => Some (0, rest)
  | x01 :: rest =>
      match dec_nat rest with
      | Some (n, rest') => Some (S n, rest')
      | None => None
      end
  | _ => None
  end.

Fixpoint split_at (n : nat) (bs : bytes) : option (bytes * bytes) :=
  match n, bs with
  | 0, _ => Some ([], bs)
  | S n', b :: rest =>
      match split_at n' rest with
      | Some (l, r) => Some (b :: l, r)
      | None => None
      end
  | S _, [] => None
  end.

Definition enc_string (s : string) : bytes :=
  let bs := list_byte_of_string s in
  enc_nat (List.length bs) ++ bs.

Definition dec_string (bs : bytes) : option (string * bytes) :=
  match dec_nat bs with
  | Some (n, rest) =>
      match split_at n rest with
      | Some (l, rest') => Some (string_of_list_byte l, rest')
      | None => None
      end
  | None => None
  end.

Definition enc_message (m : ChatMessage) : bytes :=
  enc_string (content m) ++ enc_string (author m).

Definition dec_message (bs : bytes) : option (ChatMessage * bytes) :=
  match dec_string bs with
  | Some (c, rest) =>
      match dec_string rest with
      | Some (a, rest') => Some ({| content := c; author := a |}, rest')
      | None => None
      end
  | None => None
  end.

Definition enc_messages (l : list ChatMessage) : bytes :=
  flat_map enc_message l.

Fixpoint dec_messages (n : nat) (bs : bytes) : option (list ChatMessage * bytes) :=
  match n with
  | 0 => Some ([], bs)
  | S n' =>
      match dec_message bs with
      | Some (m, rest) =>
          match dec_messages n' rest with
          | Some (l, rest') => Some (m :: l, rest')
          | None => None
          end
      | None => None
      end
  end.

Definition dumps (r : ConversationRecord) : bytes :=
  enc_string (metadata r) ++
  enc_nat (List.length (historical_chat r)) ++
  enc_messages (historical_chat r).

Definition loads (bs : bytes) : option ConversationRecord :=
  match dec_string bs with
  | Some (m, rest) =>
      match dec_nat rest with
      | Some (n, rest') =>
          match dec_messages n rest' with
          | Some (l, []) => Some {| metadata := m; historical_chat := l |}
          | _ => None
          end
      | None => None
      end
  | None => None
  end.

End Codec.

(** A runtime with that serialization, a sanitizer that changes nothing and
    no examples. *)
Definition demo_runtime : Runtime :=
  {| pickle_dumps := Codec.dumps;
     pickle_loads := Codec.loads;
     remove_markdown := fun s => s;
     examples := [] |}.

(** A chat model that answers with the given text and flag, and appends the
    exchange to the history the way the client library does: the user's
    message, then the model's. *)
Definition demo_reply (answer : string) (blocked : bool)
    (history : list ChatMessage) (prompt : pyval)
    : TextGenerationResponse * list ChatMessage :=
  ({| text := answer; is_blocked := blocked |},
   history ++ [ {| content := py_format prompt; author := "user" |};
                {| content := answer; author := "bot" |} ]).

(** Services in which no call fails. *)
Definition demo_services (answer : string) (blocked : bool) : Services :=
  {| fault := fun _ => None;
     send_message_reply := demo_reply answer blocked;
     get_keyword_reply := fun _ => "topic" |}.

(** Services in which exactly the call at [s] fails, with [e]. *)
Definition failing_at (s : Step) (e : exn) (answer : string) : Services :=
  {| fault := fun s' =>
       match s, s' with
       | AtExists, AtExists | AtDownload, AtDownload | AtChat, AtChat
       | AtPost, AtPost | AtSave, AtSave | AtKeyword, AtKeyword
       | AtLog, AtLog => Some e
       | _, _ => None
       end;
     send_message_reply := demo_reply answer false;
     get_keyword_reply := fun _ => "topic" |}.

(** The world with an empty bucket and no call made yet. *)
Definition empty_world : World := {| gcs := ∅; trace := [] |}.

(** The two events of the scenario of the design: a message that opens
    thread 100, and a follow-up in it. *)
Definition first_event : Payload :=
  <["channel" := Some "C1"]> (<["user" := Some "U1"]> (<["text" := Some "hello"]>
    (<["ts" := Some "100"]> (<["thread_ts" := None]> ∅)))).

Definition second_event : Payload :=
  <["channel" := Some "C1"]> (<["user" := Some "U1"]> (<["text" := Some "follow-up"]>
    (<["ts" := Some "101"]> (<["thread_ts" := Some "100"]> ∅)))).

(** The world after the first event, answered with "hi". *)
Definition world_after_first : World :=
  serve demo_runtime [(first_event, demo_services "hi" false)] empty_world.

(** A response that is one tab, not blocked. *)
Definition tab_response : TextGenerationResponse :=
  {| text := String TAB EmptyString; is_blocked := false |}.

(** ** Further vocabulary for traces and stores *)

(** The uploads to Cloud Storage on a trace. *)
Definition is_upload (c : Call) : bool :=
  match c with
  | BlobUpload _ _ _ => true
  | _ => false
  end.

Definition uploads (tr : list Call) : list Call := List.filter is_upload tr.

(** Every blob of the store unpickles. *)
Definition all_loadable (rt : Runtime) (w : World) : Prop :=
  forall k data, gcs w !! k = Some data -> is_Some (pickle_loads rt data).

(** A world whose only blob, the record of thread 100, is not a pickle. *)
Definition corrupt_world : World :=
  {| gcs := <[("historical-chat-object", "100.pkl") := [x00]]> ∅; trace := [] |}.

(** ** Start-up: the few-shot examples, lines 63 to 75 *)

(** What can go wrong while the module is imported: [json.loads] on a line
    that is not JSON, and [item[key]] on a record without the key. *)
Inductive StartupError : Type :=
  | JSONDecodeError
  | KeyError (key : string).

(** One record of the samples file: a JSON object with string values. *)
Abbreviation Sample := (gmap string string).

(** [item[key]] *)
Definition item_get (key : string) (item : Sample) : StartupError + string :=
  match item !! key with
  | Some v => inr v
  | None => inl (KeyError key)
  end.

(** The first loop: [sample_raws.append(json.loads(line))] for each line of
    the file; [json_loads] is the library's parser. *)
Fixpoint read_samples (json_loads : string -> option Sample) (lines : list string)
    : StartupError + list Sample :=
  match lines with
  | [] => inr []
  | line :: lines' =>
      match json_loads line with
      | None => inl JSONDecodeError
      | Some item =>
          match read_samples json_loads lines' with
          | inl e => inl e
          | inr sample_raws => inr (item :: sample_raws)
          end
      end
  end.

(** The second loop: one [InputOutputTextPair] per record. *)
Fixpoint build_examples (sample_raws : list Sample)
    : StartupError + list InputOutputTextPair :=
  match sample_raws with
  | [] => inr []
  | item :: sample_raws' =>
      match item_get "input_text" item with
      | inl e => inl e
      | inr i =>
          match item_get "output_text" item with
          | inl e => inl e
          | inr o =>
              match build_examples sample_raws' with
              | inl e => inl e
              | inr examples =>
                  inr ({| input_text := i; output_text := o |} :: examples)
              end
          end
      end
  end.

(** Both loops. *)
Definition load_examples (json_loads : string -> option Sample) (lines : list string)
    : StartupError + list InputOutputTextPair :=
  match read_samples json_loads lines with
  | inl e => inl e
  | inr sample_raws => build_examples sample_raws
  end.

(** A line and the example made from it. *)
Definition example_of_line (json_loads : string -> option Sample)
    (line : string) (ex : InputOutputTextPair) : Prop :=
  exists item,
    json_loads line = Some item /\
    item !! "input_text" = Some (input_text ex) /\
    item !! "output_text" = Some (output_text ex).

(** ** The program runs the steps of the design *)

Lemma external_ok (sv : Services) (s : Step) (c : Call) (upd : World -> World)
    (w : World) :
  fault sv s = None ->
  external sv s c upd w = (inr tt, upd {| gcs := gcs w; trace := trace w ++ [c] |}).
Proof. intros H. unfold external. now rewrite H. Qed.

Lemma external_fault (sv : Services) (s : Step) (c : Call) (upd : World -> World)
    (w : World) (e : exn) :
  fault sv s = Some e -> external sv s c upd w = (inl e, w).
Proof. intros H. unfold external. now rewrite H. Qed.

(** Unfolding the monad and the collaborators down to [external]. *)
Ltac unfold_pipeline :=
  unfold generate_response, download_blob, blob_exists, download_as_bytes,
    loads, send_message, chat_postMessage, store_historical_chat_to_gcs,
    get_keyword, send_log, get_world, raise;
  unfold mbind, M_bind, mret, M_ret; cbn [blob_bucket blob_name].

(** Deciding the next external call of the goal by the fault that is, or is
    not, injected there. *)
Ltac next_call :=
  match goal with
  | |- context [external ?sv ?s ?c ?upd ?w] =>
      let e := fresh "e" in
      let F := fresh "F" in
      destruct (fault sv s) as [e|] eqn:F;
      [ rewrite (external_fault sv s c upd w e F)
      | rewrite (external_ok sv s c upd w F) ];
      cbn [gcs trace id fst snd]
  end.

Section Run.

Variable rt : Runtime.
Variable sv : Services.
Variables ts conversation_thread user_id channel_id prompt : pyval.
Variable w : World.

(** A run on a thread without a record. *)
Lemma generate_response_new_thread :
  gcs w !! record_key conversation_thread = None ->
  generate_response rt sv ts conversation_thread user_id channel_id prompt w =
  run_steps rt sv w ts conversation_thread user_id channel_id prompt
    [AtExists; AtChat; AtPost; AtSave; AtKeyword; AtLog] w.
Proof.
  intros Hnone. unfold_pipeline. cbn [run_steps].
  unfold step_effect, step_call, response_of, saved_blob, updated_history,
    loaded_history.
  unfold record_key, record_name in *. rewrite Hnone.
  next_call; [reflexivity|].
  rewrite Hnone. rewrite bool_decide_eq_false_2 by (intros [? ?]; discriminate).
  next_call; [reflexivity|].
  destruct (send_message_reply sv [] prompt) as [response history] eqn:Hreply.
  cbn [fst snd].
  next_call; [reflexivity|].
  next_call; [reflexivity|].
  cbn [negb].
  next_call; [reflexivity|].
  next_call; reflexivity.
Qed.

(** A run on a thread whose record unpickles. *)
Lemma generate_response_existing_thread (data : bytes) (r : ConversationRecord) :
  gcs w !! record_key conversation_thread = Some data ->
  pickle_loads rt data = Some r ->
  generate_response rt sv ts conversation_thread user_id channel_id prompt w =
  run_steps rt sv w ts conversation_thread user_id channel_id prompt
    [AtExists; AtDownload; AtChat; AtPost; AtSave] w.
Proof.
  intros Hsome Hloads. unfold_pipeline. cbn [run_steps].
  unfold step_effect, step_call, response_of, saved_blob, updated_history,
    loaded_history.
  unfold record_key, record_name in *. rewrite Hsome, Hloads.
  next_call; [reflexivity|].
  rewrite Hsome. rewrite bool_decide_eq_true_2 by eauto.
  next_call; [reflexivity|].
  rewrite Hsome, Hloads.
  next_call; [reflexivity|].
  destruct (send_message_reply sv (historical_chat r) prompt)
    as [response history] eqn:Hreply.
  cbn [fst snd].
  next_call; [reflexivity|].
  next_call; reflexivity.
Qed.

(** A run on a thread whose blob does not unpickle: [pickle.loads] raises
    once the blob is downloaded. *)
Lemma generate_response_unloadable (data : bytes) :
  gcs w !! record_key conversation_thread = Some data ->
  pickle_loads rt data = None ->
  generate_response rt sv ts conversation_thread user_id channel_id prompt w =
  match run_steps rt sv w ts conversation_thread user_id channel_id prompt
          [AtExists; AtDownload] w with
  | (inr _, w') => (inl UnpicklingError, w')
  | (inl e, w') => (inl e, w')
  end.
Proof.
  intros Hsome Hloads. unfold_pipeline. cbn [run_steps].
  unfold step_effect, step_call.
  unfold record_key, record_name in *.
  next_call; [reflexivity|].
  rewrite Hsome. rewrite bool_decide_eq_true_2 by eauto.
  next_call; [reflexivity|].
  rewrite Hsome, Hloads. reflexivity.
Qed.

(** The program is the state machine, whenever the record can be read. *)
Lemma generate_response_run_steps :
  loadable rt w conversation_thread ->
  generate_response rt sv ts conversation_thread user_id channel_id prompt w =
  run_steps rt sv w ts conversation_thread user_id channel_id prompt
    (pipeline_steps w conversation_thread) w.
Proof.
  unfold loadable, pipeline_steps, has_record.
  destruct (gcs w !! record_key conversation_thread) as [data|] eqn:Hk.
  - intros [r Hr]. rewrite bool_decide_eq_true_2 by eauto.
    eapply generate_response_existing_thread; eauto.
  - intros _. rewrite bool_decide_eq_false_2 by (intros [? ?]; discriminate).
    now apply generate_response_new_thread.
Qed.

(** *** What runs of steps do *)

Abbreviation run := (run_steps rt sv w ts conversation_thread user_id channel_id prompt).
Abbreviation after := (after_steps rt sv w ts conversation_thread user_id channel_id prompt).
Abbreviation call_of := (step_call rt sv w ts conversation_thread user_id channel_id prompt).
Abbreviation effect := (step_effect rt sv w ts conversation_thread user_id channel_id prompt).

(** When no step fails the run completes in the world [after_steps]. *)
Lemma run_steps_clean (steps : list Step) (w' : World) :
  Forall (fun s => fault sv s = None) steps ->
  run steps w' = (inr tt, after steps w').
Proof.
  revert w'. induction steps as [|s steps IH]; intros w' Hclean.
  - reflexivity.
  - inversion Hclean as [|? ? Hs Hrest]; subst.
    cbn [run_steps]. rewrite Hs. rewrite IH by assumption. reflexivity.
Qed.

(** When a step fails the run stops there, with the exception, in the
    world the earlier steps left. *)
Lemma run_steps_abort (pre post : list Step) (s : Step) (e : exn) (w' : World) :
  Forall (fun s' => fault sv s' = None) pre ->
  fault sv s = Some e ->
  run (pre ++ s :: post) w' = (inl e, after pre w').
Proof.
  revert w'. induction pre as [|s0 pre IH]; intros w' Hclean Hs.
  - cbn. rewrite Hs. reflexivity.
  - inversion Hclean as [|? ? Hs0 Hrest]; subst.
    cbn [app run_steps]. rewrite Hs0. rewrite IH by assumption. reflexivity.
Qed.

(** A run that completes met no failure. *)
Lemma run_steps_completed (steps : list Step) (w' : World) :
  fst (run steps w') = inr tt ->
  Forall (fun s => fault sv s = None) steps /\ snd (run steps w') = after steps w'.
Proof.
  revert w'. induction steps as [|s steps IH]; intros w' Hok.
  - split; [constructor | reflexivity].
  - cbn [run_steps] in *. destruct (fault sv s) as [e|] eqn:Hs.
    + discriminate.
    + destruct (IH _ Hok) as [Hall Hw]. split; [now constructor | exact Hw].
Qed.

(** Every run stops after a prefix of its steps. *)
Lemma run_steps_prefix (steps : list Step) (w' : World) :
  exists pre post,
    steps = pre ++ post /\
    Forall (fun s => fault sv s = None) pre /\
    snd (run steps w') = after pre w' /\
    match post with
    | [] => fst (run steps w') = inr tt
    | s :: _ => exists e, fault sv s = Some e /\ fst (run steps w') = inl e
    end.
Proof.
  revert w'. induction steps as [|s steps IH]; intros w'.
  - exists [], []. repeat split; constructor.
  - cbn [run_steps]. destruct (fault sv s) as [e|] eqn:Hs.
    + exists [], (s :: steps). repeat split; [constructor|]. eauto.
    + destruct (IH (effect s w')) as (pre & post & -> & Hclean & Hw & Hres).
      exists (s :: pre), post. repeat split; [now constructor | exact Hw | exact Hres].
Qed.

(** The trace after some steps: their calls, appended in order. *)
Lemma after_steps_trace (steps : list Step) (w' : World) :
  trace (after steps w') = trace w' ++ map call_of steps.
Proof.
  revert w'. induction steps as [|s steps IH]; intros w'.
  - cbn. now rewrite app_nil_r.
  - cbn [after_steps fold_left map]. fold (after steps (effect s w')).
    rewrite IH. cbn [step_effect trace]. now rewrite <- app_assoc.
Qed.

(** The store after some steps: overwritten at the record's key if the
    save is among them, untouched otherwise. *)
Lemma after_steps_gcs (steps : list Step) (w' : World) :
  gcs (after steps w') =
  if existsb (fun s => match s with AtSave => true | _ => false end) steps
  then <[record_key conversation_thread :=
           saved_blob rt sv w conversation_thread prompt]> (gcs w')
  else gcs w'.
Proof.
  revert w'. induction steps as [|s steps IH]; intros w'.
  - reflexivity.
  - cbn [after_steps fold_left existsb]. fold (after steps (effect s w')).
    rewrite IH. destruct s; cbn [step_effect gcs orb]; try reflexivity.
    destruct (existsb _ steps); [|reflexivity].
    apply insert_insert_eq.
Qed.

End Run.

(** ** Properties of one run *)

Lemma filter_snoc {A : Type} (f : A -> bool) (l : list A) (x : A) :
  List.filter f (l ++ [x]) = List.filter f l ++ (if f x then [x] else []).
Proof. rewrite List.filter_app. reflexivity. Qed.

(** Replacing the program by the state machine and deciding each step. *)
Ltac by_steps Hload :=
  rewrite (generate_response_run_steps _ _ _ _ _ _ _ _ Hload);
  unfold pipeline_steps.

Ltac step_cases :=
  repeat match goal with
  | H : fault ?sv ?s = _ |- context [fault ?sv ?s] => rewrite H
  | |- context [match fault ?sv ?s with _ => _ end] =>
      let e := fresh "e" in
      let F := fresh "F" in
      destruct (fault sv s) as [e|] eqn:F
  end.

Ltac read_trace :=
  cbn [snd fst step_effect trace gcs step_call];
  unfold posts, chat_calls, audit_calls, storage_calls;
  repeat rewrite filter_snoc;
  cbn [is_post is_chat_call is_audit_call is_storage_call];
  repeat rewrite app_nil_r; repeat rewrite <- app_assoc; cbn [app].

(** Finding where a list of steps splits around a given step. *)
Ltac peel_steps H :=
  repeat match type of H with
  | _ :: _ = ?p ++ _ :: _ =>
      destruct p as [|? p]; cbn [app] in H;
      [ try discriminate H | injection H as <- H ]
  | [] = ?p ++ _ :: _ => destruct p; discriminate H
  end.

(** A blocked response is replaced by the notice, whatever its text. *)
Lemma payload_of_blocked (rt : Runtime) (response : TextGenerationResponse) :
  is_blocked response = true -> payload_of rt response = POLICY_NOTICE.
Proof. intros H. unfold payload_of. now rewrite H. Qed.

(** A response that is empty once spaces and line feeds are stripped from
    its ends is replaced by the notice. *)
Lemma payload_of_empty (rt : Runtime) (response : TextGenerationResponse) :
  String.length (py_strip STRIP_CHARS (text response)) = 0 ->
  payload_of rt response = POLICY_NOTICE.
Proof. intros H. unfold payload_of. rewrite H. cbn. now rewrite orb_true_r. Qed.

(** Any other response is posted sanitized. *)
Lemma payload_of_plain (rt : Runtime) (response : TextGenerationResponse) :
  is_blocked response = false ->
  String.length (py_strip STRIP_CHARS (text response)) <> 0 ->
  payload_of rt response = remove_markdown rt (text response).
Proof.
  intros Hb Hlen. unfold payload_of. rewrite Hb.
  destruct (String.length (py_strip STRIP_CHARS (text response))); [congruence|].
  reflexivity.
Qed.

Section Workflow.

Variable rt : Runtime.
Variable sv : Services.
Variables ts conversation_thread user_id channel_id prompt : pyval.
Variable w : World.

Abbreviation the_run :=
  (generate_response rt sv ts conversation_thread user_id channel_id prompt w).

(** A run that gets as far as the dispatch posts one message: the payload
    made from the chat model's response, in the event's channel, anchored
    at the event's timestamp. *)
Lemma generate_response_posts :
  loadable rt w conversation_thread ->
  dispatches sv w conversation_thread ->
  posts (trace (snd the_run)) =
  posts (trace w) ++
  [PostMessage channel_id ts
     (payload_of rt (response_of rt sv w conversation_thread prompt))].
Proof.
  intros Hload [[Hex [Hdl Hchat]] Hpost]. by_steps Hload.
  destruct (has_record w conversation_thread);
    [specialize (Hdl eq_refl)|]; cbn [run_steps]; step_cases; read_trace;
    reflexivity.
Qed.

(** A run that gets as far as the completion asks the chat model once,
    with the history read from the thread's record. *)
Lemma generate_response_asks :
  loadable rt w conversation_thread ->
  completes sv w conversation_thread ->
  chat_calls (trace (snd the_run)) =
  chat_calls (trace w) ++
  [ChatSend RESPONSE_STYLE (examples rt)
     (loaded_history rt w conversation_thread) prompt].
Proof.
  intros Hload [Hex [Hdl Hchat]]. by_steps Hload.
  destruct (has_record w conversation_thread);
    [specialize (Hdl eq_refl)|]; cbn [run_steps]; step_cases; read_trace;
    reflexivity.
Qed.

(** A run that gets as far as the save leaves the store with the record's
    blob overwritten by the pickled new history, and nothing else changed:
    failures of the audit calls come too late to matter. *)
Lemma generate_response_saves :
  loadable rt w conversation_thread ->
  persists sv w conversation_thread ->
  gcs (snd the_run) =
  <[record_key conversation_thread :=
      saved_blob rt sv w conversation_thread prompt]> (gcs w).
Proof.
  intros Hload [[[Hex [Hdl Hchat]] Hpost] Hsave]. by_steps Hload.
  destruct (has_record w conversation_thread);
    [specialize (Hdl eq_refl)|]; cbn [run_steps]; step_cases; reflexivity.
Qed.

(** The calls such a run makes to Cloud Storage. *)
Lemma generate_response_storage :
  loadable rt w conversation_thread ->
  persists sv w conversation_thread ->
  storage_calls (trace (snd the_run)) =
  storage_calls (trace w) ++
  BlobExists HISTORICAL_CHAT_BUCKET_NAME (record_name conversation_thread) ::
  (if has_record w conversation_thread
   then [BlobDownload HISTORICAL_CHAT_BUCKET_NAME (record_name conversation_thread)]
   else []) ++
  [BlobUpload HISTORICAL_CHAT_BUCKET_NAME (record_name conversation_thread)
     (saved_blob rt sv w conversation_thread prompt)].
Proof.
  intros Hload [[[Hex [Hdl Hchat]] Hpost] Hsave]. by_steps Hload.
  destruct (has_record w conversation_thread);
    [specialize (Hdl eq_refl)|]; cbn [run_steps]; step_cases; read_trace;
    reflexivity.
Qed.

(** With no failure the run completes, having made every step. *)
Lemma generate_response_completes :
  loadable rt w conversation_thread ->
  no_fault sv ->
  the_run =
  (inr tt,
   after_steps rt sv w ts conversation_thread user_id channel_id prompt
     (pipeline_steps w conversation_thread) w).
Proof.
  intros Hload Hclean. rewrite (generate_response_run_steps _ _ _ _ _ _ _ _ Hload).
  apply run_steps_clean. apply Forall_forall. intros s _. apply Hclean.
Qed.

(** The first failure ends the run: the exception is the result, and the
    world is the one the steps before it left. *)
Lemma generate_response_aborts (pre post : list Step) (s : Step) (e : exn) :
  loadable rt w conversation_thread ->
  pipeline_steps w conversation_thread = pre ++ s :: post ->
  Forall (fun s' => fault sv s' = None) pre ->
  fault sv s = Some e ->
  the_run =
  (inl e, after_steps rt sv w ts conversation_thread user_id channel_id prompt pre w).
Proof.
  intros Hload Hsteps Hclean Hs.
  rewrite (generate_response_run_steps _ _ _ _ _ _ _ _ Hload), Hsteps.
  now apply run_steps_abort.
Qed.

(** Whatever happens, a run only ever adds to the store. *)
Lemma generate_response_keeps_records (k : string * string) :
  is_Some (gcs w !! k) -> is_Some (gcs (snd the_run) !! k).
Proof.
  intros Hk.
  assert (Hins : forall data, is_Some (<[record_key conversation_thread := data]> (gcs w) !! k)).
  { intros data. destruct (decide (record_key conversation_thread = k)) as [<-|Hne].
    - rewrite lookup_insert_eq. eauto.
    - now rewrite lookup_insert_ne. }
  destruct (gcs w !! record_key conversation_thread) as [data|] eqn:Hrec.
  - destruct (pickle_loads rt data) as [r|] eqn:Hr.
    + rewrite (generate_response_existing_thread _ _ _ _ _ _ _ _ data r Hrec Hr).
      cbn [run_steps]. step_cases; cbn [snd step_effect gcs]; auto.
    + rewrite (generate_response_unloadable _ _ _ _ _ _ _ _ data Hrec Hr).
      cbn [run_steps]. step_cases; cbn [snd step_effect gcs]; auto.
  - rewrite (generate_response_new_thread _ _ _ _ _ _ _ _ Hrec).
    cbn [run_steps]. step_cases; cbn [snd step_effect gcs]; auto.
Qed.

(** Whatever happens, a run on a thread that has a record makes no audit
    call. *)
Lemma generate_response_existing_no_audit :
  is_Some (gcs w !! record_key conversation_thread) ->
  audit_calls (trace (snd the_run)) = audit_calls (trace w).
Proof.
  intros [data Hrec]. destruct (pickle_loads rt data) as [r|] eqn:Hr.
  - rewrite (generate_response_existing_thread _ _ _ _ _ _ _ _ data r Hrec Hr).
    cbn [run_steps]. step_cases; read_trace; reflexivity.
  - rewrite (generate_response_unloadable _ _ _ _ _ _ _ _ data Hrec Hr).
    cbn [run_steps]. step_cases; read_trace; reflexivity.
Qed.

(** A run on a thread without a record, with no failure, makes the two
    audit calls, once each, and leaves a record. *)
Lemma generate_response_first_turn :
  gcs w !! record_key conversation_thread = None ->
  no_fault sv ->
  audit_calls (trace (snd the_run)) =
  audit_calls (trace w) ++
  [GetKeyword prompt;
   SendLog user_id prompt
     (payload_of rt (response_of rt sv w conversation_thread prompt))
     (get_keyword_reply sv prompt)] /\
  is_Some (gcs (snd the_run) !! record_key conversation_thread).
Proof.
  intros Hrec Hclean.
  rewrite (generate_response_new_thread _ _ _ _ _ _ _ _ Hrec).
  cbn [run_steps]. rewrite !Hclean. split.
  - read_trace. reflexivity.
  - cbn [snd step_effect gcs]. rewrite lookup_insert_eq. eauto.
Qed.

End Workflow.


(** ** The claims about one run of the pipeline *)

Section OneRun.

Variable rt : Runtime.
Variable sv : Services.
Variables ts conversation_thread user_id channel_id prompt : pyval.
Variable w : World.

Abbreviation this_run :=
  (generate_response rt sv ts conversation_thread user_id channel_id prompt w).

(** C2: for a thread with no persisted record the look-up of the record
    answers "not found" without raising, and the run goes on: the chat
    model is asked with an empty message history, and with no failure of a
    service the run completes. *)
Theorem no_record_starts_with_empty_history :
  gcs w !! record_key conversation_thread = None ->
  fault sv AtExists = None ->
  blob_exists sv {| blob_bucket := HISTORICAL_CHAT_BUCKET_NAME;
                    blob_name := record_name conversation_thread |} w =
  (inr false,
   {| gcs := gcs w;
      trace := trace w ++
               [BlobExists HISTORICAL_CHAT_BUCKET_NAME (record_name conversation_thread)] |})
  /\ (fault sv AtChat = None ->
      chat_calls (trace (snd this_run)) =
      chat_calls (trace w) ++ [ChatSend RESPONSE_STYLE (examples rt) [] prompt])
  /\ (no_fault sv -> fst this_run = inr tt).
Proof.
  intros Hnone Hex.
  assert (Hload : loadable rt w conversation_thread).
  { unfold loadable. now rewrite Hnone. }
  assert (Hrec : has_record w conversation_thread = false).
  { unfold has_record. rewrite Hnone.
    apply bool_decide_eq_false_2. intros [? ?]; discriminate. }
  split; [|split].
  - unfold blob_exists, get_world, mbind, M_bind, mret, M_ret.
    cbn [blob_bucket blob_name].
    rewrite (external_ok _ _ _ _ _ Hex). cbn [id gcs].
    unfold record_key in Hnone. rewrite Hnone.
    rewrite bool_decide_eq_false_2 by (intros [? ?]; discriminate).
    reflexivity.
  - intros Hchat.
    rewrite (generate_response_asks rt sv ts conversation_thread user_id
               channel_id prompt w Hload).
    + unfold loaded_history. now rewrite Hnone.
    + repeat split; try assumption. rewrite Hrec. discriminate.
  - intros Hclean.
    now rewrite (generate_response_completes rt sv ts conversation_thread user_id
                   channel_id prompt w Hload Hclean).
Qed.

(** C3: when the chat model's response is flagged as blocked, the text
    posted to Slack is the policy-violation notice, letter for letter,
    whatever text the response carries. *)
Theorem blocked_response_posts_notice :
  loadable rt w conversation_thread ->
  dispatches sv w conversation_thread ->
  is_blocked (response_of rt sv w conversation_thread prompt) = true ->
  posts (trace (snd this_run)) =
  posts (trace w) ++ [PostMessage channel_id ts POLICY_NOTICE].
Proof.
  intros Hload Hgo Hblocked.
  rewrite (generate_response_posts rt sv ts conversation_thread user_id
             channel_id prompt w Hload Hgo).
  now rewrite (payload_of_blocked rt _ Hblocked).
Qed.

(** C4, in the form that holds: when the response's text has length 0 once the spaces
    and line feeds at its two ends are stripped (the two characters the
    program strips, not all whitespace), the text posted to Slack is the
    same policy-violation notice. *)
Theorem empty_response_posts_notice :
  loadable rt w conversation_thread ->
  dispatches sv w conversation_thread ->
  String.length
    (py_strip STRIP_CHARS (text (response_of rt sv w conversation_thread prompt))) = 0 ->
  posts (trace (snd this_run)) =
  posts (trace w) ++ [PostMessage channel_id ts POLICY_NOTICE].
Proof.
  intros Hload Hgo Hempty.
  rewrite (generate_response_posts rt sv ts conversation_thread user_id
             channel_id prompt w Hload Hgo).
  now rewrite (payload_of_empty rt _ Hempty).
Qed.

(** C5: when the notice stands in for a blocked or empty response, the
    record saved at the end of the run still holds the history the chat
    session ended with: the blob is the pickled record of that history, the
    notice is only in the message posted, and the store ends up the same as
    for any other response that leaves the session with the same history. *)
Theorem notice_leaves_persisted_history :
  loadable rt w conversation_thread ->
  persists sv w conversation_thread ->
  is_blocked (response_of rt sv w conversation_thread prompt) = true \/
  String.length
    (py_strip STRIP_CHARS (text (response_of rt sv w conversation_thread prompt))) = 0 ->
  posts (trace (snd this_run)) =
    posts (trace w) ++ [PostMessage channel_id ts POLICY_NOTICE]
  /\ gcs (snd this_run) =
     <[record_key conversation_thread :=
         pickle_dumps rt
           {| metadata := "dummy_metadata_chat";
              historical_chat := updated_history rt sv w conversation_thread prompt |}]>
       (gcs w)
  /\ forall sv' : Services,
       persists sv' w conversation_thread ->
       updated_history rt sv' w conversation_thread prompt =
       updated_history rt sv w conversation_thread prompt ->
       gcs (snd (generate_response rt sv' ts conversation_thread user_id
                   channel_id prompt w)) =
       gcs (snd this_run).
Proof.
  intros Hload Hgo Hsubst.
  pose proof Hgo as [Hpost _].
  split; [|split].
  - rewrite (generate_response_posts rt sv ts conversation_thread user_id
               channel_id prompt w Hload Hpost).
    destruct Hsubst as [Hb|He].
    + now rewrite (payload_of_blocked rt _ Hb).
    + now rewrite (payload_of_empty rt _ He).
  - now rewrite (generate_response_saves rt sv ts conversation_thread user_id
                   channel_id prompt w Hload Hgo).
  - intros sv' Hgo' Hsame.
    rewrite (generate_response_saves rt sv ts conversation_thread user_id
               channel_id prompt w Hload Hgo).
    rewrite (generate_response_saves rt sv' ts conversation_thread user_id
               channel_id prompt w Hload Hgo').
    unfold saved_blob. now rewrite Hsame.
Qed.

(** C8: the record's blob is named by the thread identifier followed by
    [.pkl]; the save at the end of a run writes the blob of the very name,
    in the very bucket, that the load at its start looked up, and after the
    run the saved record is what the store holds under that name, every
    other object being as before. *)
Theorem save_writes_the_blob_load_read :
  loadable rt w conversation_thread ->
  persists sv w conversation_thread ->
  let name := py_format conversation_thread +:+ ".pkl" in
  let data := saved_blob rt sv w conversation_thread prompt in
  storage_calls (trace (snd this_run)) =
    storage_calls (trace w) ++
    BlobExists HISTORICAL_CHAT_BUCKET_NAME name ::
    (if has_record w conversation_thread
     then [BlobDownload HISTORICAL_CHAT_BUCKET_NAME name]
     else []) ++
    [BlobUpload HISTORICAL_CHAT_BUCKET_NAME name data]
  /\ gcs (snd this_run) !! (HISTORICAL_CHAT_BUCKET_NAME, name) = Some data
  /\ forall k, k <> (HISTORICAL_CHAT_BUCKET_NAME, name) ->
       gcs (snd this_run) !! k = gcs w !! k.
Proof.
  intros Hload Hgo name data. split; [|split].
  - exact (generate_response_storage rt sv ts conversation_thread user_id
             channel_id prompt w Hload Hgo).
  - rewrite (generate_response_saves rt sv ts conversation_thread user_id
               channel_id prompt w Hload Hgo).
    apply lookup_insert_eq.
  - intros k Hk.
    rewrite (generate_response_saves rt sv ts conversation_thread user_id
               channel_id prompt w Hload Hgo).
    apply lookup_insert_ne. intros Heq. apply Hk. now rewrite <- Heq.
Qed.

(** C9: no failure is caught or retried.  Whichever step of the run fails
    first, the exception it raises is the result of the run, none of the
    later steps is made, and what the earlier steps did stays done.  In
    particular a failing save comes after the dispatch: the message is
    posted and the store is unchanged. *)
Theorem failure_aborts_without_rollback (pre post : list Step) (s : Step) (e : exn) :
  loadable rt w conversation_thread ->
  pipeline_steps w conversation_thread = pre ++ s :: post ->
  Forall (fun s' => fault sv s' = None) pre ->
  fault sv s = Some e ->
  this_run =
    (inl e,
     {| gcs := if existsb (fun s' => match s' with AtSave => true | _ => false end) pre
               then <[record_key conversation_thread :=
                        saved_blob rt sv w conversation_thread prompt]> (gcs w)
               else gcs w;
        trace := trace w ++
                 map (step_call rt sv w ts conversation_thread user_id channel_id prompt)
                   pre |})
  /\ (s = AtSave ->
      gcs (snd this_run) = gcs w /\
      posts (trace (snd this_run)) =
      posts (trace w) ++
      [PostMessage channel_id ts
         (payload_of rt (response_of rt sv w conversation_thread prompt))]).
Proof.
  intros Hload Hsteps Hclean Hs.
  rewrite (generate_response_aborts rt sv ts conversation_thread user_id
             channel_id prompt w pre post s e Hload Hsteps Hclean Hs).
  split.
  - f_equal.
    rewrite <- (after_steps_gcs rt sv ts conversation_thread user_id channel_id prompt w).
    rewrite <- (after_steps_trace rt sv ts conversation_thread user_id channel_id prompt w).
    now destruct (after_steps _ _ _ _ _ _ _ _ _ _).
  - intros ->. cbn [snd].
    unfold pipeline_steps in Hsteps.
    destruct (has_record w conversation_thread); peel_steps Hsteps;
      cbn [after_steps fold_left]; read_trace; split; reflexivity.
Qed.

End OneRun.

(** ** The handler *)

(** The handler reads five fields of the event and runs the pipeline on
    them; the thread is [conversation_thread_of]. *)
Lemma handle_incoming_message_runs_pipeline (rt : Runtime) (sv : Services)
    (payload : Payload) :
  handle_incoming_message rt sv payload =
  generate_response rt sv
    (payload_get "ts" payload) (conversation_thread_of payload)
    (payload_get "user" payload) (payload_get "channel" payload)
    (payload_get "text" payload).
Proof.
  unfold handle_incoming_message, conversation_thread_of.
  now destruct (payload_get "thread_ts" payload).
Qed.

(** C7: the thread identifier the pipeline is run with is the event's
    [thread_ts] when the event has one, and the event's own [ts] when
    [thread_ts] is missing or null. *)
Theorem thread_identifier_of_event (rt : Runtime) (sv : Services) (payload : Payload) :
  (forall v : string,
     payload !! "thread_ts" = Some (Some v) ->
     conversation_thread_of payload = Some v /\
     handle_incoming_message rt sv payload =
     generate_response rt sv (payload_get "ts" payload) (Some v)
       (payload_get "user" payload) (payload_get "channel" payload)
       (payload_get "text" payload))
  /\ (payload !! "thread_ts" = None \/ payload !! "thread_ts" = Some None ->
      conversation_thread_of payload = payload_get "ts" payload /\
      handle_incoming_message rt sv payload =
      generate_response rt sv (payload_get "ts" payload) (payload_get "ts" payload)
        (payload_get "user" payload) (payload_get "channel" payload)
        (payload_get "text" payload)).
Proof.
  split.
  - intros v Hv.
    assert (Hthread : conversation_thread_of payload = Some v).
    { unfold conversation_thread_of, payload_get, pyval in *. now rewrite Hv. }
    split; [exact Hthread|].
    now rewrite handle_incoming_message_runs_pipeline, Hthread.
  - intros Habsent.
    assert (Hthread : conversation_thread_of payload = payload_get "ts" payload).
    { assert (Hnull : payload_get "thread_ts" payload = None).
      { unfold payload_get, pyval in *. now destruct Habsent as [-> | ->]. }
      unfold conversation_thread_of. now rewrite Hnull. }
    split; [exact Hthread|].
    now rewrite handle_incoming_message_runs_pipeline, Hthread.
Qed.

(** C10: the handler filters nothing.  For every event, whatever its user
    and channel (missing fields read as [None]), with no failure of a
    service the whole pipeline runs: the chat model is asked with the
    event's text, its answer is posted to the event's channel, and the
    thread's record is saved. *)
Theorem every_event_runs_the_pipeline (rt : Runtime) (sv : Services)
    (payload : Payload) (w : World) :
  let thread := conversation_thread_of payload in
  let prompt := payload_get "text" payload in
  let result := handle_incoming_message rt sv payload w in
  loadable rt w thread ->
  no_fault sv ->
  fst result = inr tt
  /\ chat_calls (trace (snd result)) =
     chat_calls (trace w) ++
     [ChatSend RESPONSE_STYLE (examples rt) (loaded_history rt w thread) prompt]
  /\ posts (trace (snd result)) =
     posts (trace w) ++
     [PostMessage (payload_get "channel" payload) (payload_get "ts" payload)
        (payload_of rt (response_of rt sv w thread prompt))]
  /\ gcs (snd result) !! record_key thread = Some (saved_blob rt sv w thread prompt).
Proof.
  intros thread prompt result Hload Hclean. subst result.
  rewrite handle_incoming_message_runs_pipeline. fold thread prompt.
  assert (Hgo : persists sv w thread).
  { repeat split; try apply Hclean. intros _. apply Hclean. }
  pose proof Hgo as [Hpost _]. pose proof Hpost as [Hchat _].
  split; [|split; [|split]].
  - now rewrite (generate_response_completes rt sv _ thread _ _ prompt w Hload Hclean).
  - exact (generate_response_asks rt sv _ thread _ _ prompt w Hload Hchat).
  - exact (generate_response_posts rt sv _ thread _ _ prompt w Hload Hpost).
  - rewrite (generate_response_saves rt sv _ thread _ _ prompt w Hload Hgo).
    apply lookup_insert_eq.
Qed.

(** ** Consecutive events *)

(** A run that completes has saved the record of its thread. *)
Lemma completed_run_persists (rt : Runtime) (sv : Services)
    (ts conversation_thread user_id channel_id prompt : pyval) (w : World) :
  fst (generate_response rt sv ts conversation_thread user_id channel_id prompt w) = inr tt ->
  gcs (snd (generate_response rt sv ts conversation_thread user_id channel_id prompt w))
    !! record_key conversation_thread =
  Some (saved_blob rt sv w conversation_thread prompt).
Proof.
  destruct (gcs w !! record_key conversation_thread) as [data|] eqn:Hrec.
  - destruct (pickle_loads rt data) as [r|] eqn:Hr.
    + rewrite (generate_response_existing_thread _ _ _ _ _ _ _ _ data r Hrec Hr).
      intros Hok. apply run_steps_completed in Hok as [_ ->].
      rewrite after_steps_gcs. cbn [existsb orb]. apply lookup_insert_eq.
    + rewrite (generate_response_unloadable _ _ _ _ _ _ _ _ data Hrec Hr).
      now destruct (run_steps _ _ _ _ _ _ _ _ _ _) as [[?|?] ?].
  - rewrite (generate_response_new_thread _ _ _ _ _ _ _ _ Hrec).
    intros Hok. apply run_steps_completed in Hok as [_ ->].
    rewrite after_steps_gcs. cbn [existsb orb]. apply lookup_insert_eq.
Qed.

(** C1: for a thread with a persisted record, the message history the chat
    model is given for a new event of the thread is the history that was
    pickled into the record, provided unpickling inverts pickling.  So the
    history given after a completed run of the pipeline on the thread is the
    history that run's chat session ended with. *)
Theorem persisted_history_round_trips (rt : Runtime) (sv : Services)
    (ts conversation_thread user_id channel_id prompt : pyval) (w : World) :
  (forall r, pickle_loads rt (pickle_dumps rt r) = Some r) ->
  completes sv w conversation_thread ->
  (forall r,
     gcs w !! record_key conversation_thread = Some (pickle_dumps rt r) ->
     chat_calls
       (trace (snd (generate_response rt sv ts conversation_thread user_id
                      channel_id prompt w))) =
     chat_calls (trace w) ++
     [ChatSend RESPONSE_STYLE (examples rt) (historical_chat r) prompt])
  /\ (forall sv0 ts0 user0 channel0 prompt0 w0,
        w = snd (generate_response rt sv0 ts0 conversation_thread user0
                   channel0 prompt0 w0) ->
        fst (generate_response rt sv0 ts0 conversation_thread user0
               channel0 prompt0 w0) = inr tt ->
        chat_calls
          (trace (snd (generate_response rt sv ts conversation_thread user_id
                         channel_id prompt w))) =
        chat_calls (trace w) ++
        [ChatSend RESPONSE_STYLE (examples rt)
           (updated_history rt sv0 w0 conversation_thread prompt0) prompt]).
Proof.
  intros Hpickle Hgo.
  assert (Hstored : forall r,
    gcs w !! record_key conversation_thread = Some (pickle_dumps rt r) ->
    chat_calls
      (trace (snd (generate_response rt sv ts conversation_thread user_id
                     channel_id prompt w))) =
    chat_calls (trace w) ++
    [ChatSend RESPONSE_STYLE (examples rt) (historical_chat r) prompt]).
  { intros r Hrec.
    assert (Hload : loadable rt w conversation_thread).
    { unfold loadable. rewrite Hrec, Hpickle. eauto. }
    rewrite (generate_response_asks rt sv ts conversation_thread user_id
               channel_id prompt w Hload Hgo).
    unfold loaded_history. now rewrite Hrec, Hpickle. }
  split; [exact Hstored|].
  intros sv0 ts0 user0 channel0 prompt0 w0 Hw Hok.
  apply completed_run_persists in Hok. rewrite <- Hw in Hok.
  exact (Hstored _ Hok).
Qed.

(** The handler, too, only ever adds to the store. *)
Lemma handle_event_keeps_records (rt : Runtime) (t : Turn) (w : World)
    (k : string * string) :
  is_Some (gcs w !! k) -> is_Some (gcs (handle_event rt t w) !! k).
Proof.
  unfold handle_event. rewrite handle_incoming_message_runs_pipeline.
  apply generate_response_keeps_records.
Qed.

Lemma serve_keeps_records (rt : Runtime) (turns : list Turn) (w : World)
    (k : string * string) :
  is_Some (gcs w !! k) -> is_Some (gcs (serve rt turns w) !! k).
Proof.
  revert w. induction turns as [|t turns IH]; intros w Hk.
  - exact Hk.
  - cbn [serve fold_left]. apply IH. now apply handle_event_keeps_records.
Qed.

(** An event of a thread that has a record adds no audit call. *)
Lemma handle_event_existing_no_audit (rt : Runtime) (t : Turn) (w : World) :
  is_Some (gcs w !! record_key (conversation_thread_of (fst t))) ->
  audit_calls (trace (handle_event rt t w)) = audit_calls (trace w).
Proof.
  unfold handle_event. rewrite handle_incoming_message_runs_pipeline.
  apply generate_response_existing_no_audit.
Qed.

Lemma serve_existing_no_audit (rt : Runtime) (thread : pyval)
    (turns : list Turn) (w : World) :
  Forall (fun t => conversation_thread_of (fst t) = thread) turns ->
  is_Some (gcs w !! record_key thread) ->
  audit_calls (trace (serve rt turns w)) = audit_calls (trace w).
Proof.
  revert w. induction turns as [|t turns IH]; intros w Hsame Hrec.
  - reflexivity.
  - pose proof (Forall_inv Hsame) as Ht. cbn beta in Ht.
    pose proof (Forall_inv_tail Hsame) as Hrest.
    cbn [serve fold_left]. fold (serve rt turns (handle_event rt t w)).
    rewrite IH.
    + apply handle_event_existing_no_audit. now rewrite Ht.
    + exact Hrest.
    + now apply handle_event_keeps_records.
Qed.

Ltac count_calls :=
  unfold keyword_count, log_count;
  cbn [snd fst step_effect trace gcs step_call];
  repeat rewrite filter_snoc;
  cbn [is_keyword_call is_log_entry];
  repeat rewrite app_nil_r; repeat rewrite length_app; cbn [List.length].

Lemma handle_event_audited_at_most_once (rt : Runtime) (thread : pyval)
    (t : Turn) (w0 w : World) :
  conversation_thread_of (fst t) = thread ->
  audited_at_most_once thread w0 w ->
  audited_at_most_once thread w0 (handle_event rt t w).
Proof.
  intros Ht Hinv. unfold handle_event.
  rewrite handle_incoming_message_runs_pipeline, Ht.
  destruct Hinv as [(Hnone & Hk & Hl) | (Hsome & Hk & Hl)].
  - rewrite (generate_response_new_thread _ _ _ _ _ _ _ _ Hnone).
    cbn [run_steps]. unfold audited_at_most_once.
    step_cases; cbn [snd step_effect gcs];
      try (left; split; [exact Hnone|]; count_calls;
           unfold keyword_count, log_count in Hk, Hl; lia);
      right; (split; [rewrite lookup_insert_eq; eauto|]); count_calls;
      unfold keyword_count, log_count in Hk, Hl; lia.
  - right. split; [now apply generate_response_keeps_records|].
    destruct Hsome as [data Hrec]. destruct (pickle_loads rt data) as [r|] eqn:Hr.
    + rewrite (generate_response_existing_thread _ _ _ _ _ _ _ _ data r Hrec Hr).
      cbn [run_steps]. step_cases; count_calls;
        unfold keyword_count, log_count in Hk, Hl; lia.
    + rewrite (generate_response_unloadable _ _ _ _ _ _ _ _ data Hrec Hr).
      cbn [run_steps]. step_cases; count_calls;
        unfold keyword_count, log_count in Hk, Hl; lia.
Qed.

Lemma serve_audited_at_most_once (rt : Runtime) (thread : pyval)
    (turns : list Turn) (w0 w : World) :
  Forall (fun t => conversation_thread_of (fst t) = thread) turns ->
  audited_at_most_once thread w0 w ->
  audited_at_most_once thread w0 (serve rt turns w).
Proof.
  revert w. induction turns as [|t turns IH]; intros w Hsame Hinv.
  - exact Hinv.
  - pose proof (Forall_inv Hsame) as Ht. cbn beta in Ht.
    pose proof (Forall_inv_tail Hsame) as Hrest.
    cbn [serve fold_left]. fold (serve rt turns (handle_event rt t w)).
    apply IH; [exact Hrest|]. now apply handle_event_audited_at_most_once.
Qed.

(** C6: the audit branch runs once in the life of a thread.  Over the
    turns of a thread that starts without a record, the keyword is derived
    at most once and at most one entry is logged, whatever fails.  When the
    first event of the thread is handled without failure, both happen,
    once, in that turn: it is the turn in which the look-up of the record
    answered "not found"; no later event of the thread adds an audit call,
    whatever was handled in between and whatever fails; so over the turns
    of the thread there is exactly one of each. *)
Theorem audit_runs_once_per_thread (rt : Runtime) (w : World)
    (first later : Turn) (between rest : list Turn) :
  let thread := conversation_thread_of (fst first) in
  let prompt := payload_get "text" (fst first) in
  let w1 := handle_event rt first w in
  let w2 := serve rt between w1 in
  gcs w !! record_key thread = None ->
  conversation_thread_of (fst later) = thread ->
  Forall (fun t => conversation_thread_of (fst t) = thread) rest ->
  (keyword_count (serve rt (first :: rest) w) <= S (keyword_count w) /\
   log_count (serve rt (first :: rest) w) <= S (log_count w))
  /\ (no_fault (snd first) ->
      audit_calls (trace w1) =
        audit_calls (trace w) ++
        [GetKeyword prompt;
         SendLog (payload_get "user" (fst first)) prompt
           (payload_of rt (response_of rt (snd first) w thread prompt))
           (get_keyword_reply (snd first) prompt)]
      /\ audit_calls (trace (handle_event rt later w2)) = audit_calls (trace w2)
      /\ audit_calls (trace (serve rt (first :: rest) w)) = audit_calls (trace w1)).
Proof.
  intros thread prompt w1 w2 Hnone Hlater Hrest. split.
  - assert (Hinv : audited_at_most_once thread w (serve rt (first :: rest) w)).
    { apply serve_audited_at_most_once.
      - now constructor.
      - left. now repeat split. }
    destruct Hinv as [(_ & -> & ->) | (_ & Hk & Hl)]; [lia | now split].
  - intros Hclean.
    assert (Hfirst :
      audit_calls (trace w1) =
        audit_calls (trace w) ++
        [GetKeyword prompt;
         SendLog (payload_get "user" (fst first)) prompt
           (payload_of rt (response_of rt (snd first) w thread prompt))
           (get_keyword_reply (snd first) prompt)] /\
      is_Some (gcs w1 !! record_key thread)).
    { subst w1. unfold handle_event. rewrite handle_incoming_message_runs_pipeline.
      now apply generate_response_first_turn. }
    destruct Hfirst as [Haudit Hrec]. split; [exact Haudit|split].
    + apply handle_event_existing_no_audit. rewrite Hlater.
      subst w2. now apply serve_keeps_records.
    + cbn [serve fold_left]. fold (serve rt rest (handle_event rt first w)).
      fold w1. now apply (serve_existing_no_audit rt thread).
Qed.

(** ** Stripping *)

Lemma py_lstrip_empty (chars s : string) :
  py_lstrip chars s = EmptyString <-> only_chars chars s = true.
Proof.
  induction s as [|c s IH]; cbn.
  - tauto.
  - destruct (char_in c chars); cbn; [exact IH|].
    split; discriminate.
Qed.

Lemma py_rstrip_only_chars (chars s : string) :
  only_chars chars s = true -> py_rstrip chars s = EmptyString.
Proof.
  induction s as [|c s IH]; cbn; [reflexivity|].
  intros H. apply andb_prop in H as [Hc Hs].
  now rewrite (IH Hs), Hc.
Qed.

Lemma py_rstrip_keeps_head (chars : string) (c : ascii) (s : string) :
  char_in c chars = false -> py_rstrip chars (String c s) <> EmptyString.
Proof.
  intros Hc. cbn. destruct (py_rstrip chars s); [rewrite Hc|]; discriminate.
Qed.

Lemma py_lstrip_head (chars s : string) :
  match py_lstrip chars s with
  | EmptyString => True
  | String c _ => char_in c chars = false
  end.
Proof.
  induction s as [|c s IH]; cbn; [exact I|].
  destruct (char_in c chars) eqn:Hc; [exact IH | exact Hc].
Qed.

(** The stripped string is empty exactly when the string is made of the
    stripped characters only. *)
Lemma py_strip_empty (chars s : string) :
  py_strip chars s = EmptyString <-> only_chars chars s = true.
Proof.
  unfold py_strip. split.
  - intros H. apply py_lstrip_empty.
    pose proof (py_lstrip_head chars s) as Hhead.
    destruct (py_lstrip chars s) as [|c s'] eqn:Hl; [reflexivity|].
    now apply py_rstrip_keeps_head in H.
  - intros H. apply py_lstrip_empty in H. now rewrite H.
Qed.

Lemma only_chars_mono (chars chars' s : string) :
  (forall c, char_in c chars = true -> char_in c chars' = true) ->
  only_chars chars s = true -> only_chars chars' s = true.
Proof.
  intros Hsub. induction s as [|c s IH]; cbn; [reflexivity|].
  intros H. apply andb_prop in H as [Hc Hs].
  now rewrite (Hsub c Hc), (IH Hs).
Qed.

Lemma length_zero_empty (s : string) : String.length s = 0 <-> s = EmptyString.
Proof. destruct s; cbn; split; congruence. Qed.

(** Whatever the program takes for empty is empty for [str.strip()] too;
    the converse fails on tabs and carriage returns. *)
Lemma stripped_empty_is_whitespace (s : string) :
  String.length (py_strip STRIP_CHARS s) = 0 ->
  String.length (trim_whitespace s) = 0.
Proof.
  rewrite !length_zero_empty. unfold trim_whitespace. rewrite !py_strip_empty.
  apply only_chars_mono. intros c. cbn.
  destruct (Ascii.eqb c " "); [reflexivity|].
  destruct (Ascii.eqb c LF); [now rewrite !orb_true_r | discriminate].
Qed.

(** ** The concrete serialization round-trips *)

Module CodecFacts.

Import Codec.

Lemma dec_nat_enc_nat (n : nat) (rest : bytes) :
  dec_nat (enc_nat n ++ rest) = Some (n, rest).
Proof.
  unfold enc_nat. induction n as [|n IH]; cbn; [reflexivity|].
  now rewrite IH.
Qed.

Lemma split_at_app (l rest : bytes) :
  split_at (List.length l) (l ++ rest) = Some (l, rest).
Proof.
  induction l as [|b l IH]; cbn; [reflexivity|]. now rewrite IH.
Qed.

Lemma dec_string_enc_string (s : string) (rest : bytes) :
  dec_string (enc_string s ++ rest) = Some (s, rest).
Proof.
  unfold dec_string, enc_string. cbn zeta.
  rewrite <- app_assoc, dec_nat_enc_nat, split_at_app.
  now rewrite string_of_list_byte_of_string.
Qed.

Lemma dec_message_enc_message (m : ChatMessage) (rest : bytes) :
  dec_message (enc_message m ++ rest) = Some (m, rest).
Proof.
  unfold dec_message, enc_message.
  rewrite <- app_assoc, !dec_string_enc_string. now destruct m.
Qed.

Lemma dec_messages_enc_messages (l : list ChatMessage) (rest : bytes) :
  dec_messages (List.length l) (enc_messages l ++ rest) = Some (l, rest).
Proof.
  induction l as [|m l IH]; cbn; [reflexivity|].
  rewrite <- app_assoc, dec_message_enc_message.
  unfold enc_messages in IH. now rewrite IH.
Qed.

Lemma loads_dumps (r : ConversationRecord) : loads (dumps r) = Some r.
Proof.
  unfold loads, dumps.
  rewrite dec_string_enc_string, dec_nat_enc_nat.
  rewrite <- (app_nil_r (enc_messages _)), dec_messages_enc_messages.
  now destruct r.
Qed.

End CodecFacts.

(** ** The scenario of the design, run *)

(** The first event: thread 100 has no record; the chat model is asked
    with an empty history, the answer goes to C1, the record is saved
    under [100.pkl] and the audit calls are made. *)
Example scenario_first_event :
  map (fun c => match c with BlobUpload b n _ => BlobUpload b n [] | _ => c end)
    (trace world_after_first) =
  [BlobExists "historical-chat-object" "100.pkl";
   ChatSend "" [] [] (Some "hello");
   PostMessage (Some "C1") (Some "100") "hi";
   BlobUpload "historical-chat-object" "100.pkl" [];
   GetKeyword (Some "hello");
   SendLog (Some "U1") (Some "hello") "hi" "topic"].
Proof. vm_compute. reflexivity. Qed.

(** The follow-up: the record is read from [100.pkl], the chat model is
    asked with the history of the first exchange, and no audit call is
    made. *)
Example scenario_second_event :
  map (fun c => match c with BlobUpload b n _ => BlobUpload b n [] | _ => c end)
    (trace (handle_event demo_runtime (second_event, demo_services "sure" false)
              world_after_first)) =
  [BlobExists "historical-chat-object" "100.pkl";
   ChatSend "" [] [] (Some "hello");
   PostMessage (Some "C1") (Some "100") "hi";
   BlobUpload "historical-chat-object" "100.pkl" [];
   GetKeyword (Some "hello");
   SendLog (Some "U1") (Some "hello") "hi" "topic";
   BlobExists "historical-chat-object" "100.pkl";
   BlobDownload "historical-chat-object" "100.pkl";
   ChatSend "" []
     [{| content := "hello"; author := "user" |};
      {| content := "hi"; author := "bot" |}]
     (Some "follow-up");
   PostMessage (Some "C1") (Some "101") "sure";
   BlobUpload "historical-chat-object" "100.pkl" []].
Proof. vm_compute. reflexivity. Qed.

(** ** The claims at concrete events *)

(** C4 as the specification words it fails.  A response that is a single
    tab is empty once trimmed of whitespace, yet the program strips spaces
    and line feeds only: for every sanitizer the text posted is the
    sanitized tab, and so the claim with "whitespace" does not hold of the
    pipeline. *)
Lemma tab_response_is_not_replaced :
  String.length (trim_whitespace (text tab_response)) = 0
  /\ String.length (py_strip STRIP_CHARS (text tab_response)) = 1
  /\ (forall rt : Runtime,
        payload_of rt tab_response = remove_markdown rt (text tab_response))
  /\ ~ (forall (rt : Runtime) (sv : Services)
          (ts conversation_thread user_id channel_id prompt : pyval) (w : World),
          loadable rt w conversation_thread ->
          dispatches sv w conversation_thread ->
          String.length
            (trim_whitespace
               (text (response_of rt sv w conversation_thread prompt))) = 0 ->
          posts (trace (snd (generate_response rt sv ts conversation_thread
                               user_id channel_id prompt w))) =
          posts (trace w) ++ [PostMessage channel_id ts POLICY_NOTICE]).
Proof.
  split; [reflexivity|]. split; [reflexivity|]. split; [reflexivity|].
  intros Hclaim.
  specialize (Hclaim demo_runtime
                (demo_services (String TAB EmptyString) false)
                (Some "100") (Some "100") (Some "U1") (Some "C1") (Some "hello")
                empty_world I).
  assert (Hgo : dispatches (demo_services (String TAB EmptyString) false)
                  empty_world (Some "100")).
  { repeat split. }
  specialize (Hclaim Hgo eq_refl).
  vm_compute in Hclaim. discriminate Hclaim.
Qed.

Lemma demo_services_persist (answer : string) (blocked : bool) (w : World)
    (conversation_thread : pyval) :
  persists (demo_services answer blocked) w conversation_thread.
Proof. repeat split. Defined.

Lemma demo_services_no_fault (answer : string) (blocked : bool) :
  no_fault (demo_services answer blocked).
Proof. intros s. reflexivity. Defined.

(** C1 at the follow-up of the scenario: the history asked with is the one
    the first run saved. *)
Lemma persisted_history_round_trips_witness :
  chat_calls
    (trace (snd (generate_response demo_runtime (demo_services "sure" false)
                   (Some "101") (Some "100") (Some "U1") (Some "C1")
                   (Some "follow-up") world_after_first))) =
  chat_calls (trace world_after_first) ++
  [ChatSend RESPONSE_STYLE []
     [{| content := "hello"; author := "user" |};
      {| content := "hi"; author := "bot" |}]
     (Some "follow-up")].
Proof.
  destruct (persisted_history_round_trips demo_runtime (demo_services "sure" false)
              (Some "101") (Some "100") (Some "U1") (Some "C1") (Some "follow-up")
              world_after_first CodecFacts.loads_dumps
              (proj1 (proj1 (demo_services_persist "sure" false world_after_first
                               (Some "100")))))
    as [_ Hprev].
  refine (Hprev (demo_services "hi" false) (Some "100") (Some "U1") (Some "C1")
            (Some "hello") empty_world _ _).
  - vm_compute. reflexivity.
  - vm_compute. reflexivity.
Defined.

(** C2 at the first event of the scenario: nothing is stored, the look-up
    answers [False], the chat model gets an empty history and the run
    completes. *)
Lemma no_record_starts_with_empty_history_witness :
  chat_calls
    (trace (snd (generate_response demo_runtime (demo_services "hi" false)
                   (Some "100") (Some "100") (Some "U1") (Some "C1")
                   (Some "hello") empty_world))) =
  [ChatSend RESPONSE_STYLE [] [] (Some "hello")]
  /\ fst (generate_response demo_runtime (demo_services "hi" false)
            (Some "100") (Some "100") (Some "U1") (Some "C1")
            (Some "hello") empty_world) = inr tt.
Proof.
  destruct (no_record_starts_with_empty_history demo_runtime
              (demo_services "hi" false)
              (Some "100") (Some "100") (Some "U1") (Some "C1") (Some "hello")
              empty_world eq_refl eq_refl)
    as (_ & Hchat & Hdone).
  split.
  - exact (Hchat eq_refl).
  - exact (Hdone (demo_services_no_fault "hi" false)).
Defined.

(** C3 at a blocked response that carries text all the same. *)
Lemma blocked_response_posts_notice_witness :
  posts
    (trace (snd (generate_response demo_runtime (demo_services "raw text" true)
                   (Some "100") (Some "100") (Some "U1") (Some "C1")
                   (Some "hello") empty_world))) =
  [PostMessage (Some "C1") (Some "100") POLICY_NOTICE].
Proof.
  exact (blocked_response_posts_notice demo_runtime (demo_services "raw text" true)
           (Some "100") (Some "100") (Some "U1") (Some "C1") (Some "hello")
           empty_world I
           (proj1 (demo_services_persist "raw text" true empty_world (Some "100")))
           eq_refl).
Defined.

(** C4, in the form that holds, at a response made of a space, a line feed and a
    space. *)
Lemma empty_response_posts_notice_witness :
  posts
    (trace (snd (generate_response demo_runtime
                   (demo_services (String " " (String LF (String " " EmptyString))) false)
                   (Some "100") (Some "100") (Some "U1") (Some "C1")
                   (Some "hello") empty_world))) =
  [PostMessage (Some "C1") (Some "100") POLICY_NOTICE].
Proof.
  exact (empty_response_posts_notice demo_runtime
           (demo_services (String " " (String LF (String " " EmptyString))) false)
           (Some "100") (Some "100") (Some "U1") (Some "C1") (Some "hello")
           empty_world I
           (proj1 (demo_services_persist _ false empty_world (Some "100")))
           eq_refl).
Defined.

(** C5 at the blocked response: the notice is posted, and the record holds
    the exchange with the model's own text. *)
Lemma notice_leaves_persisted_history_witness :
  posts
    (trace (snd (generate_response demo_runtime (demo_services "raw text" true)
                   (Some "100") (Some "100") (Some "U1") (Some "C1")
                   (Some "hello") empty_world))) =
  [PostMessage (Some "C1") (Some "100") POLICY_NOTICE]
  /\ gcs (snd (generate_response demo_runtime (demo_services "raw text" true)
                 (Some "100") (Some "100") (Some "U1") (Some "C1")
                 (Some "hello") empty_world)) =
     <[("historical-chat-object", "100.pkl") :=
         Codec.dumps
           {| metadata := "dummy_metadata_chat";
              historical_chat :=
                [{| content := "hello"; author := "user" |};
                 {| content := "raw text"; author := "bot" |}] |}]> ∅.
Proof.
  destruct (notice_leaves_persisted_history demo_runtime
              (demo_services "raw text" true)
              (Some "100") (Some "100") (Some "U1") (Some "C1") (Some "hello")
              empty_world I
              (demo_services_persist "raw text" true empty_world (Some "100"))
              (or_introl eq_refl))
    as (Hposts & Hstore & _).
  split; [exact Hposts | exact Hstore].
Defined.

(** C6 at the scenario: the first event is audited; the follow-up is not,
    even when its save fails; over the two turns the audit calls are those
    of the first, one of each kind. *)
Lemma audit_runs_once_per_thread_witness :
  (keyword_count
     (serve demo_runtime
        [(first_event, demo_services "hi" false);
         (second_event, demo_services "sure" false)]
        empty_world) <= 1)
  /\ audit_calls (trace world_after_first) =
     [GetKeyword (Some "hello");
      SendLog (Some "U1") (Some "hello") "hi" "topic"]
  /\ audit_calls
       (trace (handle_event demo_runtime
                 (second_event, failing_at AtSave StorageUnavailable "sure")
                 world_after_first)) =
     audit_calls (trace world_after_first)
  /\ audit_calls
       (trace (serve demo_runtime
                 [(first_event, demo_services "hi" false);
                  (second_event, demo_services "sure" false)]
                 empty_world)) =
     audit_calls (trace world_after_first).
Proof.
  assert (Hnone : gcs empty_world !! record_key (conversation_thread_of first_event)
                  = None) by reflexivity.
  assert (Hlater : conversation_thread_of second_event
                   = conversation_thread_of first_event)
    by (vm_compute; reflexivity).
  destruct (audit_runs_once_per_thread demo_runtime empty_world
              (first_event, demo_services "hi" false)
              (second_event, failing_at AtSave StorageUnavailable "sure")
              []
              [(second_event, demo_services "sure" false)]
              Hnone Hlater
              ltac:(repeat constructor; exact Hlater))
    as [[Hcount _] Hclean].
  split; [exact Hcount|].
  exact (Hclean (demo_services_no_fault "hi" false)).
Defined.

(** C7 at the two events of the scenario: the follow-up names thread 100,
    the first event has a null [thread_ts] and is its own thread. *)
Lemma thread_identifier_of_event_witness :
  conversation_thread_of second_event = Some "100"
  /\ conversation_thread_of first_event = payload_get "ts" first_event.
Proof.
  split.
  - refine (proj1 (proj1 (thread_identifier_of_event demo_runtime
                            (demo_services "hi" false) second_event) "100" _)).
    vm_compute. reflexivity.
  - refine (proj1 (proj2 (thread_identifier_of_event demo_runtime
                            (demo_services "hi" false) first_event) (or_intror _))).
    vm_compute. reflexivity.
Defined.

(** C8 at the follow-up: look-up, download and upload all name
    [100.pkl]. *)
Lemma save_writes_the_blob_load_read_witness :
  storage_calls
    (trace (snd (generate_response demo_runtime (demo_services "sure" false)
                   (Some "101") (Some "100") (Some "U1") (Some "C1")
                   (Some "follow-up") world_after_first))) =
  storage_calls (trace world_after_first) ++
  [BlobExists "historical-chat-object" "100.pkl";
   BlobDownload "historical-chat-object" "100.pkl";
   BlobUpload "historical-chat-object" "100.pkl"
     (saved_blob demo_runtime (demo_services "sure" false) world_after_first
        (Some "100") (Some "follow-up"))]
  /\ gcs (snd (generate_response demo_runtime (demo_services "sure" false)
                 (Some "101") (Some "100") (Some "U1") (Some "C1")
                 (Some "follow-up") world_after_first))
       !! ("historical-chat-object", "100.pkl") =
     Some (saved_blob demo_runtime (demo_services "sure" false) world_after_first
             (Some "100") (Some "follow-up")).
Proof.
  assert (Hload : loadable demo_runtime world_after_first (Some "100")).
  { vm_compute. eauto. }
  destruct (save_writes_the_blob_load_read demo_runtime (demo_services "sure" false)
              (Some "101") (Some "100") (Some "U1") (Some "C1") (Some "follow-up")
              world_after_first Hload
              (demo_services_persist "sure" false world_after_first (Some "100")))
    as (Hcalls & Hblob & _).
  split; [exact Hcalls | exact Hblob].
Defined.

(** C9 at a save that fails on the first event: the exception is the
    result, the message is posted, the bucket is still empty and no audit
    call is made. *)
Lemma failure_aborts_without_rollback_witness :
  generate_response demo_runtime (failing_at AtSave StorageUnavailable "hi")
    (Some "100") (Some "100") (Some "U1") (Some "C1") (Some "hello") empty_world =
  (inl StorageUnavailable,
   {| gcs := ∅;
      trace := [BlobExists "historical-chat-object" "100.pkl";
                ChatSend "" [] [] (Some "hello");
                PostMessage (Some "C1") (Some "100") "hi"] |}).
Proof.
  refine (proj1 (failure_aborts_without_rollback demo_runtime
                   (failing_at AtSave StorageUnavailable "hi")
                   (Some "100") (Some "100") (Some "U1") (Some "C1") (Some "hello")
                   empty_world
                   [AtExists; AtChat; AtPost] [AtKeyword; AtLog] AtSave
                   StorageUnavailable I eq_refl _ eq_refl)).
  repeat constructor.
Defined.

(** C10 at an event with no field at all: the pipeline runs on [None]s,
    the chat model is asked, a message is posted and a record is saved
    under [None.pkl]. *)
Lemma every_event_runs_the_pipeline_witness :
  fst (handle_incoming_message demo_runtime (demo_services "hi" false) ∅ empty_world)
    = inr tt
  /\ chat_calls
       (trace (snd (handle_incoming_message demo_runtime (demo_services "hi" false)
                      ∅ empty_world))) =
     [ChatSend RESPONSE_STYLE [] [] None]
  /\ posts
       (trace (snd (handle_incoming_message demo_runtime (demo_services "hi" false)
                      ∅ empty_world))) =
     [PostMessage None None "hi"]
  /\ is_Some
       (gcs (snd (handle_incoming_message demo_runtime (demo_services "hi" false)
                    ∅ empty_world))
          !! ("historical-chat-object", "None.pkl")).
Proof.
  destruct (every_event_runs_the_pipeline demo_runtime (demo_services "hi" false)
              ∅ empty_world I (demo_services_no_fault "hi" false))
    as (Hdone & Hchat & Hpost & Hsave).
  split; [exact Hdone|]. split; [exact Hchat|]. split; [exact Hpost|].
  eexists. exact Hsave.
Defined.

(** ** Further properties of the pipeline *)

Lemma length_append_string (a b : string) :
  String.length (a +:+ b) = String.length a + String.length b.
Proof. induction a as [|c a IH]; [reflexivity | exact (f_equal S IH)]. Qed.

Lemma append_pkl_injective (a b : string) :
  a +:+ ".pkl" = b +:+ ".pkl" -> a = b.
Proof.
  revert b. induction a as [|c a IH]; intros [|d b] H.
  - reflexivity.
  - apply (f_equal String.length) in H.
    rewrite !length_append_string in H. cbn in H. lia.
  - apply (f_equal String.length) in H.
    rewrite !length_append_string in H. cbn in H. lia.
  - change (String c (a +:+ ".pkl") = String d (b +:+ ".pkl")) in H.
    injection H as -> H. f_equal. now apply IH.
Qed.

Lemma record_key_eq (a b : pyval) :
  record_key a = record_key b <-> py_format a = py_format b.
Proof.
  unfold record_key, record_name. split.
  - intros H. injection H as H. now apply append_pkl_injective.
  - now intros ->.
Qed.

(** The three shapes a run can take, by what the store holds for the
    thread. *)
Ltac run_shapes rt w conversation_thread :=
  let data := fresh "data" in
  let r := fresh "r" in
  let Hrec := fresh "Hrec" in
  let Hr := fresh "Hr" in
  destruct (gcs w !! record_key conversation_thread) as [data|] eqn:Hrec;
  [ destruct (pickle_loads rt data) as [r|] eqn:Hr;
    [ rewrite !(generate_response_existing_thread _ _ _ _ _ _ _ _ data r Hrec Hr)
    | rewrite !(generate_response_unloadable _ _ _ _ _ _ _ _ data Hrec Hr) ]
  | rewrite !(generate_response_new_thread _ _ _ _ _ _ _ _ Hrec) ];
  cbn [run_steps].

(** X1: the text posted for a response is decided by the flag and by the
    characters of the text: the notice when the response is blocked or its
    text holds nothing but spaces and line feeds (the empty text included),
    the sanitized text otherwise. *)
Theorem payload_of_by_characters (rt : Runtime) (response : TextGenerationResponse) :
  payload_of rt response =
  if is_blocked response || only_chars STRIP_CHARS (text response)
  then POLICY_NOTICE
  else remove_markdown rt (text response).
Proof.
  unfold payload_of. destruct (is_blocked response); [reflexivity|]. cbn [orb].
  destruct (only_chars STRIP_CHARS (text response)) eqn:Honly.
  - apply py_strip_empty in Honly. now rewrite Honly.
  - destruct (py_strip STRIP_CHARS (text response)) eqn:Hs; [|reflexivity].
    apply py_strip_empty in Hs. congruence.
Qed.

(** X2: a response that is neither blocked nor empty is posted sanitized: the
    one message of the run carries [remove_markdown] of the model's text. *)
Theorem plain_response_is_posted_sanitized (rt : Runtime) (sv : Services)
    (ts conversation_thread user_id channel_id prompt : pyval) (w : World) :
  loadable rt w conversation_thread ->
  dispatches sv w conversation_thread ->
  is_blocked (response_of rt sv w conversation_thread prompt) = false ->
  String.length
    (py_strip STRIP_CHARS (text (response_of rt sv w conversation_thread prompt))) <> 0 ->
  posts (trace (snd (generate_response rt sv ts conversation_thread user_id
                       channel_id prompt w))) =
  posts (trace w) ++
  [PostMessage channel_id ts
     (remove_markdown rt (text (response_of rt sv w conversation_thread prompt)))].
Proof.
  intros Hload Hgo Hb Hlen.
  rewrite (generate_response_posts rt sv ts conversation_thread user_id
             channel_id prompt w Hload Hgo).
  now rewrite (payload_of_plain rt _ Hb Hlen).
Qed.

(** X3: for an event inside a thread the record read and written is the
    thread's, named by [thread_ts], while the reply is posted with the
    event's own [ts] as its [thread_ts]. *)
Theorem reply_is_anchored_at_event_ts (rt : Runtime) (sv : Services)
    (payload : Payload) (w : World) (thread : string) :
  payload !! "thread_ts" = Some (Some thread) ->
  loadable rt w (Some thread) ->
  persists sv w (Some thread) ->
  let result := handle_incoming_message rt sv payload w in
  posts (trace (snd result)) =
    posts (trace w) ++
    [PostMessage (payload_get "channel" payload) (payload_get "ts" payload)
       (payload_of rt (response_of rt sv w (Some thread) (payload_get "text" payload)))]
  /\ uploads (trace (snd result)) =
     uploads (trace w) ++
     [BlobUpload HISTORICAL_CHAT_BUCKET_NAME (thread +:+ ".pkl")
        (saved_blob rt sv w (Some thread) (payload_get "text" payload))].
Proof.
  intros Hthread Hload Hgo result. subst result.
  assert (Hconv : conversation_thread_of payload = Some thread).
  { unfold conversation_thread_of, payload_get, pyval in *. now rewrite Hthread. }
  rewrite handle_incoming_message_runs_pipeline, Hconv. split.
  - exact (generate_response_posts rt sv _ (Some thread) _ _ _ w Hload (proj1 Hgo)).
  - destruct Hgo as [[[Hex [Hdl Hchat]] Hpost] Hsave]. by_steps Hload.
    destruct (has_record w (Some thread));
      [specialize (Hdl eq_refl)|]; cbn [run_steps]; step_cases;
      cbn [snd fst step_effect trace gcs step_call]; unfold uploads;
      repeat rewrite filter_snoc; cbn [is_upload];
      repeat rewrite app_nil_r; repeat rewrite <- app_assoc; reflexivity.
Qed.

(** X4: threads and records: two threads named by strings share a record only
    if they are the same thread, but an event with neither [thread_ts] nor
    [ts] is filed under [None.pkl], the record of a thread named "None". *)
Theorem records_of_threads :
  (forall a b : string, record_key (Some a) = record_key (Some b) -> a = b)
  /\ (forall payload : Payload,
        payload_get "thread_ts" payload = None ->
        payload_get "ts" payload = None ->
        record_key (conversation_thread_of payload) = record_key (Some "None")).
Proof.
  split.
  - intros a b H. now apply record_key_eq in H.
  - intros payload Ht Hts. unfold conversation_thread_of. now rewrite Ht, Hts.
Qed.

Lemma generate_response_frame (rt : Runtime) (sv : Services)
    (ts conversation_thread user_id channel_id prompt : pyval) (w : World)
    (k : string * string) :
  k <> record_key conversation_thread ->
  gcs (snd (generate_response rt sv ts conversation_thread user_id
              channel_id prompt w)) !! k =
  gcs w !! k.
Proof.
  intros Hk. run_shapes rt w conversation_thread;
    step_cases; cbn [snd step_effect gcs]; try reflexivity;
    now rewrite lookup_insert_ne.
Qed.

(** X5: whatever fails and whatever the store holds, a run changes no blob
    but the record of its own thread. *)
Theorem run_touches_only_its_record (rt : Runtime) (sv : Services)
    (ts conversation_thread user_id channel_id prompt : pyval) (w : World)
    (k : string * string) :
  k <> record_key conversation_thread ->
  gcs (snd (generate_response rt sv ts conversation_thread user_id
              channel_id prompt w)) !! k =
  gcs w !! k.
Proof. apply generate_response_frame. Qed.

(** X6: no sequence of events, whatever fails in it, deletes a blob. *)
Theorem served_records_are_never_deleted (rt : Runtime) (turns : list Turn)
    (w : World) (k : string * string) :
  is_Some (gcs w !! k) -> is_Some (gcs (serve rt turns w) !! k).
Proof. apply serve_keeps_records. Qed.

(** X7: whatever fails and whatever the store holds, a run makes each of its
    calls at most once and in the order of the program: the run adds calls
    at the end of the trace, among them at most one request to the chat
    model, a post only after that request, an upload only after the post,
    a keyword request only after the upload and a log entry only after the
    keyword request. *)
Theorem run_makes_each_call_once_in_order (rt : Runtime) (sv : Services)
    (ts conversation_thread user_id channel_id prompt : pyval) (w : World) :
  exists new : list Call,
    trace (snd (generate_response rt sv ts conversation_thread user_id
                  channel_id prompt w)) = trace w ++ new
    /\ List.length (chat_calls new) <= 1
    /\ List.length (posts new) <= List.length (chat_calls new)
    /\ List.length (uploads new) <= List.length (posts new)
    /\ List.length (List.filter is_keyword_call new) <= List.length (uploads new)
    /\ List.length (List.filter is_log_entry new)
       <= List.length (List.filter is_keyword_call new).
Proof.
  run_shapes rt w conversation_thread; step_cases;
    cbn [snd step_effect trace step_call];
    repeat rewrite <- app_assoc; cbn [app];
    (eexists; split;
     [ first [ reflexivity | symmetry; apply app_nil_r ]
     | cbn; lia ]).
Qed.

(** A run, whatever happens in it, leaves the store as it was or with the
    record of its thread overwritten by the pickled history of the chat
    session. *)
Lemma generate_response_store_cases (rt : Runtime) (sv : Services)
    (ts conversation_thread user_id channel_id prompt : pyval) (w : World) :
  gcs (snd (generate_response rt sv ts conversation_thread user_id
              channel_id prompt w)) = gcs w
  \/ gcs (snd (generate_response rt sv ts conversation_thread user_id
                 channel_id prompt w)) =
     <[record_key conversation_thread :=
         saved_blob rt sv w conversation_thread prompt]> (gcs w).
Proof.
  run_shapes rt w conversation_thread; step_cases; cbn [snd step_effect gcs]; auto.
Qed.

(** A run on a thread whose blob does not unpickle changes nothing in the
    store and reaches neither the chat model nor Slack. *)
Lemma generate_response_corrupt (rt : Runtime) (sv : Services)
    (ts conversation_thread user_id channel_id prompt : pyval) (w : World)
    (data : bytes) :
  gcs w !! record_key conversation_thread = Some data ->
  pickle_loads rt data = None ->
  let w' := snd (generate_response rt sv ts conversation_thread user_id
                   channel_id prompt w) in
  gcs w' = gcs w /\ posts (trace w') = posts (trace w)
  /\ chat_calls (trace w') = chat_calls (trace w).
Proof.
  intros Hrec Hr.
  rewrite (generate_response_unloadable _ _ _ _ _ _ _ _ data Hrec Hr).
  cbn [run_steps]. step_cases; read_trace; auto.
Qed.

(** X8: a record that does not unpickle silences its thread for good: every
    event of the thread whose storage calls succeed ends in
    [UnpicklingError], and over any sequence of events of the thread,
    whatever else fails, the blob stays as it is, the chat model is never
    asked and nothing is posted. *)
Theorem corrupt_record_silences_thread (rt : Runtime) (thread : pyval)
    (data : bytes) (turns : list Turn) (w : World) :
  gcs w !! record_key thread = Some data ->
  pickle_loads rt data = None ->
  Forall (fun t => conversation_thread_of (fst t) = thread) turns ->
  (forall sv ts user_id channel_id prompt,
     fault sv AtExists = None -> fault sv AtDownload = None ->
     fst (generate_response rt sv ts thread user_id channel_id prompt w)
     = inl UnpicklingError)
  /\ gcs (serve rt turns w) = gcs w
  /\ chat_calls (trace (serve rt turns w)) = chat_calls (trace w)
  /\ posts (trace (serve rt turns w)) = posts (trace w).
Proof.
  intros Hrec Hr Hsame. split.
  - intros sv ts user_id channel_id prompt Hex Hdl.
    rewrite (generate_response_unloadable _ _ _ _ _ _ _ _ data Hrec Hr).
    cbn [run_steps]. now rewrite Hex, Hdl.
  - revert w Hrec. induction turns as [|t turns IH]; intros w Hrec.
    + auto.
    + pose proof (Forall_inv Hsame) as Ht. cbn beta in Ht.
      pose proof (Forall_inv_tail Hsame) as Hrest.
      cbn [serve fold_left]. fold (serve rt turns (handle_event rt t w)).
      assert (Hstep : gcs (handle_event rt t w) = gcs w /\
                      posts (trace (handle_event rt t w)) = posts (trace w) /\
                      chat_calls (trace (handle_event rt t w)) = chat_calls (trace w)).
      { unfold handle_event. rewrite handle_incoming_message_runs_pipeline, Ht.
        exact (generate_response_corrupt rt _ _ thread _ _ _ w data Hrec Hr). }
      destruct Hstep as (Hg & Hp & Hc).
      destruct (IH Hrest (handle_event rt t w)) as (Hg' & Hc' & Hp').
      { now rewrite Hg. }
      rewrite Hg', Hc', Hp'. auto.
Qed.

Lemma handle_event_stays_loadable (rt : Runtime) (t : Turn) (w : World) :
  (forall r, pickle_loads rt (pickle_dumps rt r) = Some r) ->
  all_loadable rt w -> all_loadable rt (handle_event rt t w).
Proof.
  intros Hpickle Hall. unfold handle_event.
  rewrite handle_incoming_message_runs_pipeline. unfold all_loadable.
  destruct (generate_response_store_cases rt (snd t)
              (payload_get "ts" (fst t)) (conversation_thread_of (fst t))
              (payload_get "user" (fst t)) (payload_get "channel" (fst t))
              (payload_get "text" (fst t)) w) as [-> | ->]; [exact Hall|].
  intros k data.
  destruct (decide (record_key (conversation_thread_of (fst t)) = k)) as [<-|Hne].
  - rewrite lookup_insert_eq. intros [= <-]. unfold saved_blob.
    rewrite Hpickle. eauto.
  - rewrite lookup_insert_ne by exact Hne. apply Hall.
Qed.

Lemma serve_stays_loadable (rt : Runtime) (turns : list Turn) (w : World) :
  (forall r, pickle_loads rt (pickle_dumps rt r) = Some r) ->
  all_loadable rt w -> all_loadable rt (serve rt turns w).
Proof.
  intros Hpickle. revert w. induction turns as [|t turns IH]; intros w Hall.
  - exact Hall.
  - cbn [serve fold_left]. apply IH. now apply handle_event_stays_loadable.
Qed.

(** X9: the pipeline never corrupts its own store.  When unpickling inverts
    pickling and every blob of the store unpickles, the same holds after
    any sequence of events, whatever fails in it; so an event whose
    services all work is answered to the end, whatever happened to the
    events before it. *)
Theorem served_store_stays_loadable (rt : Runtime) (turns : list Turn) (w : World) :
  (forall r, pickle_loads rt (pickle_dumps rt r) = Some r) ->
  all_loadable rt w ->
  all_loadable rt (serve rt turns w)
  /\ (forall (before after : list Turn) (t : Turn),
        turns = before ++ t :: after ->
        no_fault (snd t) ->
        fst (handle_incoming_message rt (snd t) (fst t) (serve rt before w)) = inr tt).
Proof.
  intros Hpickle Hall. split.
  - now apply serve_stays_loadable.
  - intros before after t _ Hclean.
    pose proof (serve_stays_loadable rt before w Hpickle Hall) as Hbefore.
    rewrite handle_incoming_message_runs_pipeline.
    rewrite generate_response_completes; [reflexivity| |exact Hclean].
    unfold loadable.
    destruct (gcs (serve rt before w) !! record_key (conversation_thread_of (fst t)))
      as [data|] eqn:Hk; [|exact I].
    exact (Hbefore _ _ Hk).
Qed.

(** X10: the handler reads five fields of the event and nothing else: two
    events that agree on [channel], [user], [text], [ts] and [thread_ts]
    are handled alike, whatever other fields (a subtype, a bot id) they
    carry. *)
Theorem handler_reads_five_fields (rt : Runtime) (sv : Services)
    (payload payload' : Payload) :
  (forall key,
     In key ["channel"; "user"; "text"; "ts"; "thread_ts"] ->
     payload_get key payload = payload_get key payload') ->
  handle_incoming_message rt sv payload = handle_incoming_message rt sv payload'.
Proof.
  intros Hsame. rewrite !handle_incoming_message_runs_pipeline.
  unfold conversation_thread_of.
  rewrite (Hsame "channel"), (Hsame "user"), (Hsame "text"), (Hsame "ts"),
    (Hsame "thread_ts") by (cbn; tauto).
  reflexivity.
Qed.

(** X11: the user id reaches nothing but the audit entry: with another user id
    the run has the same result and leaves the same store and, the log
    entry apart, the same calls. *)
Theorem user_id_only_reaches_the_log (rt : Runtime) (sv : Services)
    (ts conversation_thread user_id user_id' channel_id prompt : pyval) (w : World) :
  let r := generate_response rt sv ts conversation_thread user_id channel_id prompt w in
  let r' := generate_response rt sv ts conversation_thread user_id' channel_id prompt w in
  fst r = fst r' /\ gcs (snd r) = gcs (snd r')
  /\ List.filter (fun c => negb (is_log_entry c)) (trace (snd r)) =
     List.filter (fun c => negb (is_log_entry c)) (trace (snd r')).
Proof.
  cbn zeta. run_shapes rt w conversation_thread; step_cases;
    cbn [snd fst step_effect trace gcs step_call];
    repeat rewrite filter_snoc; cbn [is_log_entry negb];
    repeat rewrite app_nil_r; auto.
Qed.

(** X12: the channel and the timestamp of the event reach nothing but the
    message posted: with another channel or timestamp the run has the same
    result and leaves the same store and, the post apart, the same calls. *)
Theorem address_only_reaches_the_post (rt : Runtime) (sv : Services)
    (ts ts' conversation_thread user_id channel_id channel_id' prompt : pyval)
    (w : World) :
  let r := generate_response rt sv ts conversation_thread user_id channel_id prompt w in
  let r' := generate_response rt sv ts' conversation_thread user_id channel_id' prompt w in
  fst r = fst r' /\ gcs (snd r) = gcs (snd r')
  /\ List.filter (fun c => negb (is_post c)) (trace (snd r)) =
     List.filter (fun c => negb (is_post c)) (trace (snd r')).
Proof.
  cbn zeta. run_shapes rt w conversation_thread; step_cases;
    cbn [snd fst step_effect trace gcs step_call];
    repeat rewrite filter_snoc; cbn [is_post negb];
    repeat rewrite app_nil_r; auto.
Qed.

(** X13: the calls of a run in which nothing fails, in order: the look-up of
    the record, its download when there is one, the request to the chat
    model, the post, the upload and, for a thread without a record, the
    keyword request and the log entry. *)
Theorem completed_run_calls (rt : Runtime) (sv : Services)
    (ts conversation_thread user_id channel_id prompt : pyval) (w : World) :
  loadable rt w conversation_thread ->
  no_fault sv ->
  let name := record_name conversation_thread in
  let payload := payload_of rt (response_of rt sv w conversation_thread prompt) in
  trace (snd (generate_response rt sv ts conversation_thread user_id
                channel_id prompt w)) =
  trace w ++
  BlobExists HISTORICAL_CHAT_BUCKET_NAME name ::
  (if has_record w conversation_thread
   then [BlobDownload HISTORICAL_CHAT_BUCKET_NAME name]
   else []) ++
  [ChatSend RESPONSE_STYLE (examples rt)
     (loaded_history rt w conversation_thread) prompt;
   PostMessage channel_id ts payload;
   BlobUpload HISTORICAL_CHAT_BUCKET_NAME name
     (saved_blob rt sv w conversation_thread prompt)] ++
  (if has_record w conversation_thread
   then []
   else [GetKeyword prompt;
         SendLog user_id prompt payload (get_keyword_reply sv prompt)]).
Proof.
  intros Hload Hclean name payload.
  rewrite (generate_response_completes rt sv ts conversation_thread user_id
             channel_id prompt w Hload Hclean).
  cbn [snd]. rewrite after_steps_trace. unfold pipeline_steps.
  now destruct (has_record w conversation_thread).
Qed.

(** ** Events of different threads *)

Lemma saved_blob_local (rt : Runtime) (sv : Services) (w w' : World)
    (conversation_thread prompt : pyval) :
  gcs w !! record_key conversation_thread = gcs w' !! record_key conversation_thread ->
  saved_blob rt sv w conversation_thread prompt =
  saved_blob rt sv w' conversation_thread prompt.
Proof.
  intros H. unfold saved_blob, updated_history, loaded_history. now rewrite H.
Qed.

(** A run looks at the store through its thread's record only: in two
    worlds that hold the same blob there, it has the same result and makes
    the same change to the store. *)
Lemma generate_response_local (rt : Runtime) (sv : Services)
    (ts conversation_thread user_id channel_id prompt : pyval) (w w' : World) :
  gcs w !! record_key conversation_thread = gcs w' !! record_key conversation_thread ->
  fst (generate_response rt sv ts conversation_thread user_id channel_id prompt w) =
  fst (generate_response rt sv ts conversation_thread user_id channel_id prompt w')
  /\ exists upd : option bytes,
       gcs (snd (generate_response rt sv ts conversation_thread user_id
                   channel_id prompt w)) =
       match upd with
       | Some blob => <[record_key conversation_thread := blob]> (gcs w)
       | None => gcs w
       end
       /\ gcs (snd (generate_response rt sv ts conversation_thread user_id
                      channel_id prompt w')) =
          match upd with
          | Some blob => <[record_key conversation_thread := blob]> (gcs w')
          | None => gcs w'
          end.
Proof.
  intros H. pose proof (saved_blob_local rt sv w w' conversation_thread prompt H) as Hblob.
  destruct (gcs w !! record_key conversation_thread) as [data|] eqn:Hw; symmetry in H.
  - destruct (pickle_loads rt data) as [r|] eqn:Hr.
    + rewrite (generate_response_existing_thread _ _ _ _ _ _ _ w data r Hw Hr).
      rewrite (generate_response_existing_thread _ _ _ _ _ _ _ w' data r H Hr).
      cbn [run_steps]. step_cases; cbn [snd fst step_effect gcs];
        rewrite <- ?Hblob; (split; [reflexivity|]);
        first [ exists None; split; reflexivity
              | eexists (Some _); split; reflexivity ].
    + rewrite (generate_response_unloadable _ _ _ _ _ _ _ w data Hw Hr).
      rewrite (generate_response_unloadable _ _ _ _ _ _ _ w' data H Hr).
      cbn [run_steps]. step_cases; cbn [snd fst step_effect gcs];
        (split; [reflexivity|]); exists None; split; reflexivity.
  - rewrite (generate_response_new_thread _ _ _ _ _ _ _ w Hw).
    rewrite (generate_response_new_thread _ _ _ _ _ _ _ w' H).
    cbn [run_steps]. step_cases; cbn [snd fst step_effect gcs];
      rewrite <- ?Hblob; (split; [reflexivity|]);
      first [ exists None; split; reflexivity
            | eexists (Some _); split; reflexivity ].
Qed.

(** X14: events of threads with different records do not interfere: each has
    the same result whether it is handled before or after the other, and
    the store ends up the same in either order, whatever fails. *)
Theorem different_threads_commute (rt : Runtime)
    (sva : Services) (tsa thread_a user_a channel_a prompt_a : pyval)
    (svb : Services) (tsb thread_b user_b channel_b prompt_b : pyval)
    (w : World) :
  record_key thread_a <> record_key thread_b ->
  let run_a := generate_response rt sva tsa thread_a user_a channel_a prompt_a in
  let run_b := generate_response rt svb tsb thread_b user_b channel_b prompt_b in
  fst (run_a (snd (run_b w))) = fst (run_a w)
  /\ fst (run_b (snd (run_a w))) = fst (run_b w)
  /\ gcs (snd (run_b (snd (run_a w)))) = gcs (snd (run_a (snd (run_b w)))).
Proof.
  intros Hne run_a run_b.
  assert (Ha : gcs w !! record_key thread_a = gcs (snd (run_b w)) !! record_key thread_a).
  { symmetry. now apply generate_response_frame. }
  assert (Hb : gcs w !! record_key thread_b = gcs (snd (run_a w)) !! record_key thread_b).
  { symmetry. apply generate_response_frame. congruence. }
  destruct (generate_response_local rt sva tsa thread_a user_a channel_a prompt_a
              w (snd (run_b w)) Ha) as (Hra & upd_a & Hga & Hga').
  destruct (generate_response_local rt svb tsb thread_b user_b channel_b prompt_b
              w (snd (run_a w)) Hb) as (Hrb & upd_b & Hgb & Hgb').
  fold run_a in Hra, Hga, Hga'. fold run_b in Hrb, Hgb, Hgb'.
  split; [now symmetry|]. split; [now symmetry|].
  rewrite Hgb', Hga', Hga, Hgb.
  destruct upd_a, upd_b; try reflexivity.
  now apply insert_insert_ne.
Qed.

(** ** Start-up *)

Lemma read_samples_spec (json_loads : string -> option Sample)
    (lines : list string) (sample_raws : list Sample) :
  read_samples json_loads lines = inr sample_raws <->
  Forall2 (fun line item => json_loads line = Some item) lines sample_raws.
Proof.
  revert sample_raws. induction lines as [|line lines IH]; intros sample_raws; cbn.
  - split.
    + intros [= <-]. constructor.
    + intros H. inversion H. reflexivity.
  - destruct (json_loads line) as [item|] eqn:Hline.
    + destruct (read_samples json_loads lines) as [e|raws] eqn:Hrest.
      * split; [discriminate|]. intros H. inversion H as [|? ? ? ? _ Hl]; subst.
        apply IH in Hl. discriminate.
      * split.
        -- intros [= <-]. constructor; [exact Hline | now apply IH].
        -- intros H. inversion H as [|? item' ? raws' Hi Hl]; subst.
           apply IH in Hl. congruence.
    + split; [discriminate|]. intros H. inversion H; congruence.
Qed.

Lemma build_examples_spec (sample_raws : list Sample) (exs : list InputOutputTextPair) :
  build_examples sample_raws = inr exs <->
  Forall2 (fun item ex =>
             item !! "input_text" = Some (input_text ex) /\
             item !! "output_text" = Some (output_text ex)) sample_raws exs.
Proof.
  revert exs. induction sample_raws as [|item raws IH]; intros exs; cbn.
  - split.
    + intros [= <-]. constructor.
    + intros H. inversion H. reflexivity.
  - unfold item_get.
    destruct (item !! "input_text") as [i|] eqn:Hi.
    + destruct (item !! "output_text") as [o|] eqn:Ho.
      * destruct (build_examples raws) as [e|rest] eqn:Hrest.
        -- split; [discriminate|]. intros H. inversion H as [|? ? ? ? _ Hl]; subst.
           apply IH in Hl. discriminate.
        -- split.
           ++ intros [= <-]. constructor; [now split | now apply IH].
           ++ intros H. inversion H as [|? ex ? exs' [Hi' Ho'] Hl]; subst.
              apply IH in Hl. destruct ex. cbn in *. congruence.
      * split; [discriminate|]. intros H.
        inversion H as [|? ? ? ? [_ Ho'] _]; congruence.
    + split; [discriminate|]. intros H.
      inversion H as [|? ? ? ? [Hi' _] _]; congruence.
Qed.

(** X15: the examples are loaded exactly when every line of the samples file
    parses to a record with an [input_text] and an [output_text]; there is
    then one example per line, in the order of the file, made of those two
    fields, other fields being ignored. *)
Theorem load_examples_succeeds_iff (json_loads : string -> option Sample)
    (lines : list string) (exs : list InputOutputTextPair) :
  load_examples json_loads lines = inr exs <->
  Forall2 (example_of_line json_loads) lines exs.
Proof.
  unfold load_examples, example_of_line. split.
  - destruct (read_samples json_loads lines) as [e|raws] eqn:Hread; [discriminate|].
    intros Hbuild. apply read_samples_spec in Hread. apply build_examples_spec in Hbuild.
    revert exs Hbuild. induction Hread as [|line item lines raws Hline _ IH];
      intros exs Hbuild; inversion Hbuild as [|? ex ? exs' Hex Hrest]; subst.
    + constructor.
    + constructor; [exists item; tauto | now apply IH].
  - intros Hall.
    assert (Hraws : exists raws,
      Forall2 (fun line item => json_loads line = Some item) lines raws /\
      Forall2 (fun item ex =>
                 item !! "input_text" = Some (input_text ex) /\
                 item !! "output_text" = Some (output_text ex)) raws exs).
    { induction Hall as [|line ex lines exs (item & Hline & Hi & Ho) _ (raws & Hr & Hb)].
      - exists []. split; constructor.
      - exists (item :: raws). split; constructor; auto. }
    destruct Hraws as (raws & Hread & Hbuild).
    apply read_samples_spec in Hread. rewrite Hread.
    now apply build_examples_spec.
Qed.

Lemma build_examples_no_json_error (sample_raws : list Sample) :
  build_examples sample_raws <> inl JSONDecodeError.
Proof.
  induction sample_raws as [|item raws IH]; cbn; [discriminate|].
  unfold item_get.
  destruct (item !! "input_text"); [|discriminate].
  destruct (item !! "output_text"); [|discriminate].
  destruct (build_examples raws) as [e|rest]; [|discriminate].
  intros [= ->]. now apply IH.
Qed.

Lemma read_samples_error (json_loads : string -> option Sample) (lines : list string)
    (e : StartupError) :
  read_samples json_loads lines = inl e ->
  e = JSONDecodeError /\ Exists (fun line => json_loads line = None) lines.
Proof.
  induction lines as [|line lines IH]; cbn; [discriminate|].
  destruct (json_loads line) as [item|] eqn:Hline.
  - destruct (read_samples json_loads lines) as [e'|raws]; [|discriminate].
    intros [= <-]. destruct (IH eq_refl) as [-> Hbad].
    split; [reflexivity | now apply Exists_cons_tl].
  - intros [= <-]. split; [reflexivity | now apply Exists_cons_hd].
Qed.

(** X16: all the lines are parsed before any record is looked at: a line that
    is not JSON fails the start-up with [JSONDecodeError] wherever it is in
    the file, even after a record that lacks a key, and only a file whose
    lines all parse can fail with [KeyError]. *)
Theorem bad_line_fails_before_bad_record (json_loads : string -> option Sample)
    (lines : list string) :
  load_examples json_loads lines = inl JSONDecodeError <->
  Exists (fun line => json_loads line = None) lines.
Proof.
  unfold load_examples. split.
  - destruct (read_samples json_loads lines) as [e|raws] eqn:Hread.
    + intros _. now apply read_samples_error in Hread.
    + intros Hbuild. now apply build_examples_no_json_error in Hbuild.
  - intros Hbad.
    assert (Hread : read_samples json_loads lines = inl JSONDecodeError).
    { induction Hbad as [line lines Hline | line lines _ IH]; cbn.
      - now rewrite Hline.
      - destruct (json_loads line); [now rewrite IH | reflexivity]. }
    now rewrite Hread.
Qed.

(** ** The further properties at concrete events *)

Lemma plain_response_is_posted_sanitized_witness :
  posts
    (trace (snd (generate_response demo_runtime (demo_services "hi" false)
                   (Some "100") (Some "100") (Some "U1") (Some "C1")
                   (Some "hello") empty_world))) =
  [PostMessage (Some "C1") (Some "100") "hi"].
Proof.
  refine (plain_response_is_posted_sanitized demo_runtime (demo_services "hi" false)
            (Some "100") (Some "100") (Some "U1") (Some "C1") (Some "hello")
            empty_world I
            (proj1 (demo_services_persist "hi" false empty_world (Some "100")))
            eq_refl _).
  vm_compute. discriminate.
Defined.

Lemma reply_is_anchored_at_event_ts_witness :
  posts
    (trace (snd (handle_incoming_message demo_runtime (demo_services "sure" false)
                   second_event world_after_first))) =
  posts (trace world_after_first) ++
  [PostMessage (Some "C1") (Some "101") "sure"]
  /\ uploads
       (trace (snd (handle_incoming_message demo_runtime (demo_services "sure" false)
                      second_event world_after_first))) =
     uploads (trace world_after_first) ++
     [BlobUpload "historical-chat-object" "100.pkl"
        (saved_blob demo_runtime (demo_services "sure" false) world_after_first
           (Some "100") (Some "follow-up"))].
Proof.
  assert (Hthread : second_event !! "thread_ts" = Some (Some "100"))
    by (vm_compute; reflexivity).
  assert (Hload : loadable demo_runtime world_after_first (Some "100")).
  { vm_compute. eauto. }
  exact (reply_is_anchored_at_event_ts demo_runtime (demo_services "sure" false)
           second_event world_after_first "100" Hthread Hload
           (demo_services_persist "sure" false world_after_first (Some "100"))).
Defined.

Lemma records_of_threads_witness :
  record_key (conversation_thread_of ∅) = record_key (Some "None").
Proof.
  exact (proj2 records_of_threads ∅ eq_refl eq_refl).
Defined.

Lemma run_touches_only_its_record_witness :
  gcs (snd (generate_response demo_runtime (demo_services "other" false)
              (Some "200") (Some "200") (Some "U2") (Some "C1")
              (Some "elsewhere") world_after_first))
    !! ("historical-chat-object", "100.pkl") =
  gcs world_after_first !! ("historical-chat-object", "100.pkl").
Proof.
  refine (run_touches_only_its_record demo_runtime (demo_services "other" false)
            (Some "200") (Some "200") (Some "U2") (Some "C1") (Some "elsewhere")
            world_after_first ("historical-chat-object", "100.pkl") _).
  vm_compute. discriminate.
Defined.

Lemma served_records_are_never_deleted_witness :
  is_Some
    (gcs (serve demo_runtime
            [(second_event, failing_at AtSave StorageUnavailable "sure");
             (first_event, demo_services "again" true)]
            world_after_first)
       !! ("historical-chat-object", "100.pkl")).
Proof.
  refine (served_records_are_never_deleted demo_runtime _ world_after_first
            ("historical-chat-object", "100.pkl") _).
  vm_compute. eauto.
Defined.

Lemma corrupt_record_silences_thread_witness :
  fst (generate_response demo_runtime (demo_services "hi" false)
         (Some "101") (Some "100") (Some "U1") (Some "C1") (Some "follow-up")
         corrupt_world) = inl UnpicklingError
  /\ posts
       (trace (serve demo_runtime
                 [(second_event, demo_services "sure" false);
                  (second_event, demo_services "again" false)]
                 corrupt_world)) = [].
Proof.
  assert (Hthread : conversation_thread_of second_event = Some "100")
    by (vm_compute; reflexivity).
  destruct (corrupt_record_silences_thread demo_runtime (Some "100") [x00]
              [(second_event, demo_services "sure" false);
               (second_event, demo_services "again" false)]
              corrupt_world eq_refl eq_refl
              ltac:(repeat constructor; exact Hthread))
    as (Hraise & _ & _ & Hposts).
  split.
  - exact (Hraise (demo_services "hi" false) (Some "101") (Some "U1") (Some "C1")
             (Some "follow-up") eq_refl eq_refl).
  - exact Hposts.
Defined.

Lemma empty_world_loadable : all_loadable demo_runtime empty_world.
Proof. intros k data H. vm_compute in H. discriminate H. Defined.

Lemma served_store_stays_loadable_witness :
  fst (handle_incoming_message demo_runtime (demo_services "sure" false) second_event
         (serve demo_runtime
            [(first_event, failing_at AtKeyword AuditError "hi")] empty_world))
  = inr tt.
Proof.
  exact (proj2 (served_store_stays_loadable demo_runtime
                  [(first_event, failing_at AtKeyword AuditError "hi");
                   (second_event, demo_services "sure" false)]
                  empty_world CodecFacts.loads_dumps empty_world_loadable)
           [(first_event, failing_at AtKeyword AuditError "hi")] []
           (second_event, demo_services "sure" false)
           eq_refl (demo_services_no_fault "sure" false)).
Defined.

Lemma handler_reads_five_fields_witness :
  handle_incoming_message demo_runtime (demo_services "hi" false)
    (<["bot_id" := Some "B1"]> first_event) =
  handle_incoming_message demo_runtime (demo_services "hi" false) first_event.
Proof.
  refine (handler_reads_five_fields demo_runtime (demo_services "hi" false)
            (<["bot_id" := Some "B1"]> first_event) first_event _).
  intros key Hkey. cbn in Hkey.
  destruct Hkey as [<-|[<-|[<-|[<-|[<-|[]]]]]]; vm_compute; reflexivity.
Defined.

Lemma completed_run_calls_witness :
  trace (snd (generate_response demo_runtime (demo_services "sure" false)
                (Some "101") (Some "100") (Some "U1") (Some "C1")
                (Some "follow-up") world_after_first)) =
  trace world_after_first ++
  [BlobExists "historical-chat-object" "100.pkl";
   BlobDownload "historical-chat-object" "100.pkl";
   ChatSend "" []
     [{| content := "hello"; author := "user" |};
      {| content := "hi"; author := "bot" |}]
     (Some "follow-up");
   PostMessage (Some "C1") (Some "101") "sure";
   BlobUpload "historical-chat-object" "100.pkl"
     (saved_blob demo_runtime (demo_services "sure" false) world_after_first
        (Some "100") (Some "follow-up"))].
Proof.
  assert (Hload : loadable demo_runtime world_after_first (Some "100")).
  { vm_compute. eauto. }
  exact (completed_run_calls demo_runtime (demo_services "sure" false)
           (Some "101") (Some "100") (Some "U1") (Some "C1") (Some "follow-up")
           world_after_first Hload (demo_services_no_fault "sure" false)).
Defined.

Lemma different_threads_commute_witness :
  gcs (snd (generate_response demo_runtime (demo_services "b" false)
              (Some "200") (Some "200") (Some "U2") (Some "C1") (Some "two")
              (snd (generate_response demo_runtime
                      (failing_at AtLog AuditError "a")
                      (Some "100") (Some "100") (Some "U1") (Some "C1") (Some "one")
                      empty_world)))) =
  gcs (snd (generate_response demo_runtime (failing_at AtLog AuditError "a")
              (Some "100") (Some "100") (Some "U1") (Some "C1") (Some "one")
              (snd (generate_response demo_runtime (demo_services "b" false)
                      (Some "200") (Some "200") (Some "U2") (Some "C1") (Some "two")
                      empty_world)))).
Proof.
  refine (proj2 (proj2 (different_threads_commute demo_runtime
            (failing_at AtLog AuditError "a")
            (Some "100") (Some "100") (Some "U1") (Some "C1") (Some "one")
            (demo_services "b" false)
            (Some "200") (Some "200") (Some "U2") (Some "C1") (Some "two")
            empty_world _))).
  vm_compute. discriminate.
Defined.
